(** * Background-editing client: the Gemini service wrapper and the App handler

    A shallow embedding of [src/services/geminiService.ts]
    ([fileToGenerativePart], [processImage]) and of the stateful part of
    [src/App.tsx] ([handleProcessImage], [isProcessButtonDisabled]).

    JavaScript strings are sequences of UTF-16 code units; promises are
    modelled by the way they settle; the browser's [FileReader], the
    environment variable and the vendor API are oracles of a [World], and
    every call that leaves the program is recorded in a log. *)

From Stdlib Require Import List NArith Ascii String Bool Arith Lia.
From ExtLib Require Import Structures.Monad.
Import ListNotations.
Import MonadNotation.
Local Open Scope monad_scope.

(** ** JavaScript strings *)

Module Js.

(** A string value: its UTF-16 code units. *)
Definition str := list N.

(** An ASCII literal of the source. *)
Definition lit (s : string) : str :=
  map N_of_ascii (list_ascii_of_string s).

Definition comma : N := 44.

(** [s.startsWith(p)] *)
Fixpoint startsWith (s p : str) : bool :=
  match p with
  | [] => true
  | c :: p' =>
      match s with
      | [] => false
      | d :: s' => N.eqb d c && startsWith s' p'
      end
  end.

(** [s.split(sep)] for a separator of one code unit: the segments
    between the separators, all of them, in order. *)
Fixpoint split (sep : N) (s : str) : list str :=
  match s with
  | [] => [[]]
  | c :: s' =>
      if N.eqb c sep then [] :: split sep s'
      else match split sep s' with
           | seg :: segs => (c :: seg) :: segs
           | [] => [[c]]
           end
  end.

(** White space and line terminators of ECMAScript, which [trim] strips. *)
Definition isWhiteSpace (c : N) : bool :=
  existsb (N.eqb c)
    [9; 10; 11; 12; 13; 32; 160; 5760; 8232; 8233; 8239; 8287; 12288; 65279]%N
  || (N.leb 8192 c && N.leb c 8202).

Fixpoint trimStart (s : str) : str :=
  match s with
  | [] => []
  | c :: s' => if isWhiteSpace c then trimStart s' else s
  end.

Definition trimEnd (s : str) : str := rev (trimStart (rev s)).

(** [s.trim()] *)
Definition trim (s : str) : str := trimEnd (trimStart s).

(** Truthiness of a string: the empty string is falsy. *)
Definition truthy (s : str) : bool :=
  match s with [] => false | _ :: _ => true end.

(** Truthiness of [string | null | undefined]. *)
Definition truthy_opt (o : option str) : bool :=
  match o with None => false | Some s => truthy s end.

(** A value of type [string | undefined] inside a template literal. *)
Definition template (o : option str) : str :=
  match o with None => lit "undefined" | Some s => s end.

(** The part of [s] after its first comma ([None] when it has none). *)
Fixpoint afterFirstComma (s : str) : option str :=
  match s with
  | [] => None
  | c :: s' => if N.eqb c comma then Some s' else afterFirstComma s'
  end.

End Js.

(** ** Data of the vendor SDK, as the program reads and builds it

    Every field of the SDK's [Part], [Blob], [Content], [Candidate] and
    response objects is optional. *)

Record Blob := { data : option Js.str; mimeType : option Js.str }.

Record Part := { inlineData : option Blob; text : option Js.str }.

Record Content := { parts : option (list Part) }.

Record Candidate := { content : option Content }.

Record GenerateContentResponse := { candidates : option (list Candidate) }.

Inductive Modality := IMAGE | TEXT.

(** The argument of [ai.models.generateContent]. *)
Record GenerateContentParameters := {
  model : Js.str;
  contents : list Part;
  responseModalities : list Modality
}.

(** A browser [File]: the program reads only its [type]. *)
Record File := { fileName : Js.str; fileType : Js.str; fileBytes : list N }.

(** ** Thrown values *)

Inductive Thrown :=
| Error (message : Js.str)          (* [new Error(message)] *)
| TypeError                         (* raised by the engine on [undefined.startsWith] *)
| Value (message : option Js.str)   (* any other value that has properties, with its [message] field *)
| Nullish.                          (* [null] or [undefined] *)

(** The engine's text for a property read on [undefined]. The wording is
    the engine's own (this is V8's) and nothing below depends on it. *)
Definition typeErrorText : Js.str :=
  Js.lit "Cannot read properties of undefined (reading 'startsWith')".

(** Whether a property can be read off a thrown value: reading one off
    [null] or [undefined] throws. *)
Definition hasProperties (e : Thrown) : bool :=
  match e with
  | Nullish => false
  | _ => true
  end.

(** The [message] field of a thrown value that has properties (a nullish
    value has no field to read, see [hasProperties]). *)
Definition messageOf (e : Thrown) : option Js.str :=
  match e with
  | Error m => Some m
  | TypeError => Some typeErrorText
  | Value m => m
  | Nullish => None
  end.

(** ** Promises and the outside world *)

(** How a promise settles, if it does. *)
Inductive Settled (A : Type) :=
| Fulfilled (a : A)
| Rejected (e : Thrown)
| Pending.
Arguments Fulfilled {A} a.
Arguments Rejected {A} e.
Arguments Pending {A}.

(** Calls that leave the program. *)
Inductive Event :=
| ReadAsDataURL (f : File)
| GenerateContent (apiKey : Js.str) (params : GenerateContentParameters)
| ConsoleError (e : Thrown).

Record World := {
  (** [process.env.API_KEY] *)
  API_KEY : option Js.str;
  (** [reader.result] when [loadend] fires for a file ([None] on the
      outside: the event never fires; [Some None]: the result is [null]). *)
  loadend : File -> option (option Js.str);
  (** The vendor API behind a client built with the given key. *)
  generateContent : Js.str -> GenerateContentParameters -> Settled GenerateContentResponse
}.

(** An asynchronous computation: it reads the world, logs its calls and
    settles (or stays pending at an [await]). *)
Definition Async (A : Type) : Type := World -> list Event * Settled A.

Definition Async_ret {A} (a : A) : Async A := fun _ => ([], Fulfilled a).

Definition Async_bind {A B} (m : Async A) (k : A -> Async B) : Async B :=
  fun w =>
    match m w with
    | (l, Fulfilled a) => let (l', r) := k a w in (l ++ l', r)
    | (l, Rejected e) => (l, Rejected e)
    | (l, Pending) => (l, Pending)
    end.

#[global] Instance Monad_Async : Monad Async :=
  {| ret := @Async_ret; bind := @Async_bind |}.

(** [throw e] *)
Definition throw {A} (e : Thrown) : Async A := fun _ => ([], Rejected e).

(** [process.env.API_KEY] *)
Definition env_API_KEY : Async (option Js.str) :=
  fun w => ([], Fulfilled (API_KEY w)).

(** [reader.readAsDataURL(file)] and the wait for [onloadend]: yields
    [reader.result]. *)
Definition readAsDataURL (file : File) : Async (option Js.str) :=
  fun w =>
    ([ReadAsDataURL file],
     match loadend w file with
     | Some result => Fulfilled result
     | None => Pending
     end).

(** [await ai.models.generateContent(params)] on a client built with [key]. *)
Definition models_generateContent (key : Js.str) (params : GenerateContentParameters)
  : Async GenerateContentResponse :=
  fun w => ([GenerateContent key params], generateContent w key params).

(** ** [src/services/geminiService.ts] *)

(** The body of [reader.onloadend]: the value the promise resolves with. *)
Definition onloadend (result : option Js.str) : option Js.str :=
  match result with
  | Some s =>
      if Js.truthy s then nth_error (Js.split Js.comma s) 1 else Some []
  | None => Some []
  end.

Definition fileToGenerativePart (file : File) : Async Part :=
  result <- readAsDataURL file ;;
  let base64EncodedData := onloadend result in
  ret {| inlineData := Some {| data := base64EncodedData;
                               mimeType := Some (fileType file) |};
         text := None |}.

Definition apiKeyError : Thrown :=
  Error (Js.lit "API_KEY environment variable not set").

(** "API neatgrieza attelu. Ludzu, meginiet velreiz ar citu attelu vai
    uzvedni.", with its diacritics as code units. *)
Definition noImageMessage : Js.str :=
  Js.lit "API neatgrieza att" ++ [275]%N ++ Js.lit "lu. L" ++ [363]%N
  ++ Js.lit "dzu, m" ++ [275; 291]%N ++ Js.lit "iniet v" ++ [275]%N
  ++ Js.lit "lreiz ar citu att" ++ [275]%N ++ Js.lit "lu vai uzvedni.".

Definition noImageError : Thrown := Error noImageMessage.

Definition modelName : Js.str := Js.lit "gemini-2.5-flash-image-preview".

(** [response.candidates?.[0]?.content?.parts || []] *)
Definition responseParts (response : GenerateContentResponse) : list Part :=
  match candidates response with
  | Some (c :: _) =>
      match content c with
      | Some ct => match parts ct with Some ps => ps | None => [] end
      | None => []
      end
  | _ => []
  end.

(** The [for ... of] loop of [processImage] and the [throw] after it. *)
Fixpoint scanParts (ps : list Part) : Settled Js.str :=
  match ps with
  | [] => Rejected noImageError
  | part :: rest =>
      match inlineData part with
      | None => scanParts rest
      | Some blob =>
          match mimeType blob with
          | None => Rejected TypeError
          | Some mt =>
              if Js.startsWith mt (Js.lit "image/")
              then Fulfilled (Js.lit "data:" ++ mt ++ Js.lit ";base64,"
                              ++ Js.template (data blob))
              else scanParts rest
          end
      end
  end.

Definition settle {A} (r : Settled A) : Async A := fun _ => ([], r).

Definition processImage (prompt : Js.str) (originalImage : File)
    (backgroundImage : option File) : Async Js.str :=
  key <- env_API_KEY ;;
  match key with
  | None | Some [] => throw apiKeyError
  | Some (k :: ey) =>
      let apiKey := k :: ey in
      originalImagePart <- fileToGenerativePart originalImage ;;
      parts1 <- match backgroundImage with
                | Some bg =>
                    backgroundImagePart <- fileToGenerativePart bg ;;
                    ret [originalImagePart; backgroundImagePart]
                | None => ret [originalImagePart]
                end ;;
      let parts2 := parts1 ++ [{| inlineData := None; text := Some prompt |}] in
      response <- models_generateContent apiKey
                    {| model := modelName;
                       contents := parts2;
                       responseModalities := [IMAGE; TEXT] |} ;;
      settle (scanParts (responseParts response))
  end.

(** ** [src/App.tsx] *)

(** Modelled from the spec: the enumeration [OperationMode] of
    [src/types.ts], which is not among the sources; the spec speaks of
    three background-editing modes and [App.tsx] names these three. *)
Inductive OperationMode := TRANSPARENT | AI_BACKGROUND | CUSTOM_BACKGROUND.

(** The state hooks of [App]. *)
Record AppState := {
  mode : OperationMode;
  originalImage : option File;
  backgroundImage : option File;
  prompt : Js.str;
  resultImage : option Js.str;
  isLoading : bool;
  error : option Js.str
}.

(** [useState] initial values. *)
Definition initialState : AppState :=
  {| mode := TRANSPARENT; originalImage := None; backgroundImage := None;
     prompt := []; resultImage := None; isLoading := false; error := None |}.

Definition setMode (m : OperationMode) (st : AppState) : AppState :=
  {| mode := m; originalImage := originalImage st;
     backgroundImage := backgroundImage st; prompt := prompt st;
     resultImage := resultImage st; isLoading := isLoading st;
     error := error st |}.

Definition setOriginalImage (f : File) (st : AppState) : AppState :=
  {| mode := mode st; originalImage := Some f;
     backgroundImage := backgroundImage st; prompt := prompt st;
     resultImage := resultImage st; isLoading := isLoading st;
     error := error st |}.

Definition setBackgroundImage (f : File) (st : AppState) : AppState :=
  {| mode := mode st; originalImage := originalImage st;
     backgroundImage := Some f; prompt := prompt st;
     resultImage := resultImage st; isLoading := isLoading st;
     error := error st |}.

Definition setPrompt (p : Js.str) (st : AppState) : AppState :=
  {| mode := mode st; originalImage := originalImage st;
     backgroundImage := backgroundImage st; prompt := p;
     resultImage := resultImage st; isLoading := isLoading st;
     error := error st |}.

Definition setResultImage (r : option Js.str) (st : AppState) : AppState :=
  {| mode := mode st; originalImage := originalImage st;
     backgroundImage := backgroundImage st; prompt := prompt st;
     resultImage := r; isLoading := isLoading st; error := error st |}.

Definition setIsLoading (b : bool) (st : AppState) : AppState :=
  {| mode := mode st; originalImage := originalImage st;
     backgroundImage := backgroundImage st; prompt := prompt st;
     resultImage := resultImage st; isLoading := b; error := error st |}.

Definition setError (e : option Js.str) (st : AppState) : AppState :=
  {| mode := mode st; originalImage := originalImage st;
     backgroundImage := backgroundImage st; prompt := prompt st;
     resultImage := resultImage st; isLoading := isLoading st; error := e |}.

(** The messages of the handler, diacritics as code units. *)
Definition msgNoOriginal : Js.str :=
  Js.lit "L" ++ [363]%N ++ Js.lit "dzu, aug" ++ [353]%N ++ Js.lit "upiel"
  ++ [257]%N ++ Js.lit "d" ++ [275]%N ++ Js.lit "jiet s" ++ [257]%N
  ++ Js.lit "kotn" ++ [275]%N ++ Js.lit "jo att" ++ [275]%N ++ Js.lit "lu.".

Definition msgNoPrompt : Js.str :=
  Js.lit "L" ++ [363]%N ++ Js.lit "dzu, ievadiet aprakstu jaunajam fonam.".

Definition msgNoBackground : Js.str :=
  Js.lit "L" ++ [363]%N ++ Js.lit "dzu, aug" ++ [353]%N ++ Js.lit "upiel"
  ++ [257]%N ++ Js.lit "d" ++ [275]%N ++ Js.lit "jiet fona att" ++ [275]%N
  ++ Js.lit "lu.".

Definition msgUnexpected : Js.str :=
  Js.lit "Notika neparedz" ++ [275]%N ++ Js.lit "ta k" ++ [316; 363]%N
  ++ Js.lit "da.".

Definition transparentPrompt : Js.str :=
  Js.lit "Isolate the main subject from the image and make the background transparent. The output should be a PNG image with a transparent background.".

Definition aiBackgroundPrompt (prompt : Js.str) : Js.str :=
  Js.lit "Replace the background of the image with the following scene: "
  ++ prompt ++ Js.lit ". Keep the main subject from the original image.".

Definition customBackgroundPrompt : Js.str :=
  Js.lit "Take the main subject from the first image and place it realistically onto the background provided in the second image. Blend the subject with the new background, matching lighting and perspective.".

(** The arguments of a call [processImage(apiPrompt, originalImage, bgImage)]. *)
Record Call := { apiPrompt : Js.str; image : File; bgImage : option File }.

(** [handleProcessImage] up to the [try]: the state it leaves and the call
    it goes on to make, if it does not return before. *)
Definition handleProcessImage_start (st : AppState) : AppState * option Call :=
  match originalImage st with
  | None => (setError (Some msgNoOriginal) st, None)
  | Some original =>
      let st := setResultImage None (setError None (setIsLoading true st)) in
      match mode st with
      | TRANSPARENT =>
          (st, Some {| apiPrompt := transparentPrompt; image := original;
                       bgImage := None |})
      | AI_BACKGROUND =>
          if negb (Js.truthy (Js.trim (prompt st)))
          then (setIsLoading false (setError (Some msgNoPrompt) st), None)
          else (st, Some {| apiPrompt := aiBackgroundPrompt (prompt st);
                            image := original; bgImage := None |})
      | CUSTOM_BACKGROUND =>
          match backgroundImage st with
          | None => (setIsLoading false (setError (Some msgNoBackground) st), None)
          | Some background =>
              (st, Some {| apiPrompt := customBackgroundPrompt;
                           image := original; bgImage := Some background |})
          end
      end
  end.

(** [e.message || 'Notika ...'] *)
Definition userMessage (e : Thrown) : Js.str :=
  match messageOf e with
  | Some m => if Js.truthy m then m else msgUnexpected
  | None => msgUnexpected
  end.

(** The [try]/[catch]/[finally] of [handleProcessImage], once the promise
    of [processImage] has settled. In the [catch] block [console.error(e)]
    comes first; the read [e.message] then throws when [e] is [null] or
    [undefined], so that [setError] is not reached; [finally] runs either
    way. *)
Definition handleProcessImage_settled (r : Settled Js.str) (st : AppState)
  : list Event * AppState :=
  match r with
  | Fulfilled result => ([], setIsLoading false (setResultImage (Some result) st))
  | Rejected e =>
      ([ConsoleError e],
       setIsLoading false
         (if hasProperties e then setError (Some (userMessage e)) st else st))
  | Pending => ([], st)
  end.

(** A whole run of the handler against a world. *)
Definition handleProcessImage (st : AppState) (w : World) : list Event * AppState :=
  match handleProcessImage_start st with
  | (st1, None) => ([], st1)
  | (st1, Some c) =>
      let (log, r) := processImage (apiPrompt c) (image c) (bgImage c) w in
      let (log', st2) := handleProcessImage_settled r st1 in
      (log ++ log', st2)
  end.

Definition isProcessButtonDisabled (st : AppState) : bool :=
  negb (match originalImage st with Some _ => true | None => false end)
  || isLoading st.

(** The page as a transition system: the user's actions, a click on the
    process button (which the browser delivers only while the button is
    enabled) and the settling of a pending [processImage] promise.
    [inFlight] counts the runs of the handler that wait at their [await]. *)
Record Page := { ui : AppState; inFlight : nat }.

Inductive step : Page -> Page -> Prop :=
| step_setMode m p :
    step p {| ui := setMode m (ui p); inFlight := inFlight p |}
| step_setOriginalImage f p :
    step p {| ui := setOriginalImage f (ui p); inFlight := inFlight p |}
| step_setBackgroundImage f p :
    step p {| ui := setBackgroundImage f (ui p); inFlight := inFlight p |}
| step_setPrompt s p :
    step p {| ui := setPrompt s (ui p); inFlight := inFlight p |}
| step_click_return p st :
    isProcessButtonDisabled (ui p) = false ->
    handleProcessImage_start (ui p) = (st, None) ->
    step p {| ui := st; inFlight := inFlight p |}
| step_click_call p st c :
    isProcessButtonDisabled (ui p) = false ->
    handleProcessImage_start (ui p) = (st, Some c) ->
    step p {| ui := st; inFlight := S (inFlight p) |}
| step_settled p n r :
    inFlight p = S n ->
    r <> Pending ->
    step p {| ui := snd (handleProcessImage_settled r (ui p)); inFlight := n |}.

Inductive reachable : Page -> Prop :=
| reachable_init : reachable {| ui := initialState; inFlight := 0 |}
| reachable_step p q : reachable p -> step p q -> reachable q.

(** ** What a run of [processImage] does, step by step *)

(** The part [fileToGenerativePart] builds for a file whose reader ended
    with [result]. *)
Definition imagePart (f : File) (result : option Js.str) : Part :=
  {| inlineData := Some {| data := onloadend result;
                           mimeType := Some (fileType f) |};
     text := None |}.

Definition textPart (p : Js.str) : Part :=
  {| inlineData := None; text := Some p |}.

(** The [parts] array at the call of the API, when both readers end. *)
Definition requestParts (w : World) (p : Js.str) (o : File) (bg : option File)
  : option (list Part) :=
  match loadend w o with
  | None => None
  | Some r1 =>
      match bg with
      | None => Some [imagePart o r1; textPart p]
      | Some b =>
          match loadend w b with
          | None => None
          | Some r2 => Some [imagePart o r1; imagePart b r2; textPart p]
          end
      end
  end.

(** The file reads a run starts. *)
Definition reads (w : World) (o : File) (bg : option File) : list Event :=
  ReadAsDataURL o ::
  match loadend w o, bg with
  | Some _, Some b => [ReadAsDataURL b]
  | _, _ => []
  end.

Definition request (ps : list Part) : GenerateContentParameters :=
  {| model := modelName; contents := ps; responseModalities := [IMAGE; TEXT] |}.

(** What follows the [await] of the API call. *)
Definition afterResponse (r : Settled GenerateContentResponse) : Settled Js.str :=
  match r with
  | Fulfilled response => scanParts (responseParts response)
  | Rejected e => Rejected e
  | Pending => Pending
  end.

Definition encodingsComplete (w : World) (o : File) (bg : option File) : bool :=
  match loadend w o with
  | None => false
  | Some _ =>
      match bg with
      | None => true
      | Some b => match loadend w b with None => false | Some _ => true end
      end
  end.

(** The number of API requests in a log. *)
Definition isRequest (ev : Event) : bool :=
  match ev with GenerateContent _ _ => true | _ => false end.

Definition requestCount (log : list Event) : nat :=
  List.length (filter isRequest log).

(** ** Notions the properties speak of *)

(** A part the scan returns at: inline data typed as an image. *)
Definition isImagePart (part : Part) : bool :=
  match inlineData part with
  | Some blob =>
      match mimeType blob with
      | Some mt => Js.startsWith mt (Js.lit "image/")
      | None => false
      end
  | None => false
  end.

(** A part the scan passes over: no inline data, or inline data whose
    mime type is a string that does not start with "image/". *)
Definition passedOver (part : Part) : bool :=
  match inlineData part with
  | None => true
  | Some blob =>
      match mimeType blob with
      | Some mt => negb (Js.startsWith mt (Js.lit "image/"))
      | None => false
      end
  end.

(** The data URI built from a blob and its mime type. *)
Definition dataURI (mt : Js.str) (blob : Blob) : Js.str :=
  Js.lit "data:" ++ mt ++ Js.lit ";base64," ++ Js.template (data blob).

Definition hasText (part : Part) : bool :=
  match text part with Some _ => true | None => false end.

Definition hasInlineData (part : Part) : bool :=
  match inlineData part with Some _ => true | None => false end.

(** A response in which [candidates] is absent or empty, or the first
    candidate has no [content], or that content has no [parts]. *)
Definition lacksParts (response : GenerateContentResponse) : Prop :=
  candidates response = None
  \/ candidates response = Some []
  \/ exists c cs, candidates response = Some (c :: cs)
       /\ (content c = None
           \/ exists ct, content c = Some ct /\ parts ct = None).

(** What [readAsDataURL] produces: a base64 data URL, whose header has
    no comma and whose payload is in the base64 alphabet. *)
Definition notComma (c : N) : bool := negb (N.eqb c Js.comma).

Definition isBase64 (c : N) : bool :=
  (N.leb 65 c && N.leb c 90) || (N.leb 97 c && N.leb c 122)
  || (N.leb 48 c && N.leb c 57) || N.eqb c 43 || N.eqb c 47 || N.eqb c 61.

Definition dataURL (mediatype payload : Js.str) : Js.str :=
  Js.lit "data:" ++ mediatype ++ Js.lit ";base64," ++ payload.

(** The reading of error handling under which every displayed error
    stems from a rejected API call: behind the message [m] shown after
    a run there is a request of that run which the API rejected. *)
Definition apiRejectionBehind (st : AppState) (w : World) (m : Js.str) : Prop :=
  exists key params e,
    In (GenerateContent key params) (fst (handleProcessImage st w))
    /\ generateContent w key params = Rejected e
    /\ m = userMessage e.

Definition errorsOnlyFromApi (st : AppState) (w : World) : Prop :=
  forall m, error (snd (handleProcessImage st w)) = Some m ->
            apiRejectionBehind st w m.

(** ** Sample files, responses, worlds and states *)

Definition cat : File :=
  {| fileName := Js.lit "cat.png"; fileType := Js.lit "image/png";
     fileBytes := [137; 80; 78; 71]%N |}.

Definition beach : File :=
  {| fileName := Js.lit "beach.jpg"; fileType := Js.lit "image/jpeg";
     fileBytes := [255; 216; 255]%N |}.

Definition catURL : Js.str := dataURL (Js.lit "image/png") (Js.lit "iVBORw==").

Definition blobPart (d mt : option Js.str) : Part :=
  {| inlineData := Some {| data := d; mimeType := mt |}; text := None |}.

Definition responseOf (ps : list Part) : GenerateContentResponse :=
  {| candidates := Some [{| content := Some {| parts := Some ps |} |}] |}.

(** A text part, then an image. *)
Definition imageResponse : GenerateContentResponse :=
  responseOf [textPart (Js.lit "Here you are");
              blobPart (Some (Js.lit "AAAA")) (Some (Js.lit "image/png"))].

(** Inline data without a mime type, then an image. *)
Definition untypedBlobResponse : GenerateContentResponse :=
  responseOf [blobPart (Some (Js.lit "eA==")) None;
              blobPart (Some (Js.lit "AAAA")) (Some (Js.lit "image/png"))].

Definition worldAnswering (r : Settled GenerateContentResponse) : World :=
  {| API_KEY := Some (Js.lit "secret");
     loadend := fun _ => Some (Some catURL);
     generateContent := fun _ _ => r |}.

Definition worldWithoutKey : World :=
  {| API_KEY := None;
     loadend := fun _ => Some (Some catURL);
     generateContent := fun _ _ => Fulfilled imageResponse |}.

Definition worldEmptyRead : World :=
  {| API_KEY := Some (Js.lit "secret");
     loadend := fun _ => Some None;
     generateContent := fun _ _ => Fulfilled imageResponse |}.

Definition stateWith (m : OperationMode) (bg : option File) (p : Js.str) : AppState :=
  {| mode := m; originalImage := Some cat; backgroundImage := bg;
     prompt := p; resultImage := None; isLoading := false; error := None |}.

(** ** The rest of [src/App.tsx]: the uploader's handler and the view *)

(** [handleFileChange] of [ImageUploader]: [event.target.files] is a file
    list or [null]; its first file, if any, goes to [onImageUpload]. *)
Definition handleFileChange (onImageUpload : File -> AppState -> AppState)
    (files : option (list File)) (st : AppState) : AppState :=
  match files with
  | Some (f :: _) => onImageUpload f st
  | _ => st
  end.

Definition OperationMode_eqb (a b : OperationMode) : bool :=
  match a, b with
  | TRANSPARENT, TRANSPARENT => true
  | AI_BACKGROUND, AI_BACKGROUND => true
  | CUSTOM_BACKGROUND, CUSTOM_BACKGROUND => true
  | _, _ => false
  end.

(** The settings panels of step 3. *)
Inductive Panel :=
| PromptInput (value : Js.str)
| BackgroundUpload (chosen : option File)
| TransparentNote.

(** What the JSX of [App] shows that depends on the state. *)
Record View := {
  loader : bool;
  highlighted : OperationMode;
  panels : list Panel;
  buttonDisabled : bool;
  errorText : option Js.str;
  resultLink : option Js.str
}.

(** The [return] of [App]: [{isLoading && <Loader />}], the three
    [mode === ... &&] panels in their order, the process button,
    [{error && <p>...}] and [resultImage ? ... : ...]. *)
Definition render (st : AppState) : View :=
  {| loader := isLoading st;
     highlighted := mode st;
     panels :=
       (if OperationMode_eqb (mode st) AI_BACKGROUND
        then [PromptInput (prompt st)] else [])
       ++ (if OperationMode_eqb (mode st) CUSTOM_BACKGROUND
           then [BackgroundUpload (backgroundImage st)] else [])
       ++ (if OperationMode_eqb (mode st) TRANSPARENT
           then [TransparentNote] else []);
     buttonDisabled := isProcessButtonDisabled st;
     errorText := if Js.truthy_opt (error st) then error st else None;
     resultLink := if Js.truthy_opt (resultImage st) then resultImage st
                   else None |}.

(** The text of [s] up to its first comma. *)
Fixpoint untilComma (s : Js.str) : Js.str :=
  match s with
  | [] => []
  | c :: s' => if N.eqb c Js.comma then [] else c :: untilComma s'
  end.

Definition isConsoleError (ev : Event) : bool :=
  match ev with ConsoleError _ => true | _ => false end.

Lemma fileToGenerativePart_run f w :
  fileToGenerativePart f w =
  ([ReadAsDataURL f],
   match loadend w f with
   | Some r => Fulfilled (imagePart f r)
   | None => Pending
   end).
Proof.
  unfold fileToGenerativePart, readAsDataURL; cbn.
  unfold Async_bind. destruct (loadend w f); reflexivity.
Qed.

Lemma processImage_run p o bg w :
  processImage p o bg w =
  match API_KEY w with
  | None | Some [] => ([], Rejected apiKeyError)
  | Some (k :: ey) =>
      match requestParts w p o bg with
      | None => (reads w o bg, Pending)
      | Some ps =>
          (reads w o bg ++ [GenerateContent (k :: ey) (request ps)],
           afterResponse (generateContent w (k :: ey) (request ps)))
      end
  end.
Proof.
  unfold processImage, fileToGenerativePart, readAsDataURL,
    models_generateContent, settle, throw, env_API_KEY, requestParts, reads,
    afterResponse, request, imagePart, textPart.
  cbn [bind ret Monad_Async]; unfold Async_bind, Async_ret.
  destruct (API_KEY w) as [[|k ey]|]; try reflexivity.
  destruct (loadend w o) as [r1|]; [|reflexivity].
  destruct bg as [b|]; [destruct (loadend w b) as [r2|]; [|reflexivity]|];
    cbn [app];
    match goal with
    | |- context [generateContent w ?key ?req] =>
        destruct (generateContent w key req)
    end; reflexivity.
Qed.

(** ** Splitting at commas *)

Section Commas.

Lemma split_comma_free s :
  forallb notComma s = true -> Js.split Js.comma s = [s].
Proof.
  induction s as [|c s IH]; cbn [forallb Js.split]; [reflexivity|].
  intros H. apply andb_prop in H as [Hc Hs].
  unfold notComma in Hc. apply negb_true_iff in Hc. rewrite Hc.
  rewrite (IH Hs). reflexivity.
Qed.

Lemma split_at_comma header rest :
  forallb notComma header = true ->
  Js.split Js.comma (header ++ Js.comma :: rest)
  = header :: Js.split Js.comma rest.
Proof.
  induction header as [|c h IH]; cbn [forallb app Js.split]; intros H.
  - rewrite N.eqb_refl. reflexivity.
  - apply andb_prop in H as [Hc Hs].
    unfold notComma in Hc. apply negb_true_iff in Hc. rewrite Hc.
    rewrite (IH Hs). reflexivity.
Qed.

Lemma afterFirstComma_at_comma header rest :
  forallb notComma header = true ->
  Js.afterFirstComma (header ++ Js.comma :: rest) = Some rest.
Proof.
  induction header as [|c h IH]; cbn [forallb app Js.afterFirstComma]; intros H.
  - rewrite N.eqb_refl. reflexivity.
  - apply andb_prop in H as [Hc Hs].
    unfold notComma in Hc. apply negb_true_iff in Hc. rewrite Hc.
    exact (IH Hs).
Qed.

Lemma base64_notComma c : isBase64 c = true -> notComma c = true.
Proof.
  unfold isBase64, notComma, Js.comma. intros H.
  apply negb_true_iff, N.eqb_neq. intros ->. discriminate H.
Qed.

Lemma base64_comma_free payload :
  forallb isBase64 payload = true -> forallb notComma payload = true.
Proof.
  rewrite !forallb_forall. intros H c Hc. apply base64_notComma, H, Hc.
Qed.

(** A data URL is its header, one comma, and the payload. *)
Lemma dataURL_header mediatype payload :
  dataURL mediatype payload
  = (Js.lit "data:" ++ mediatype ++ Js.lit ";base64") ++ Js.comma :: payload.
Proof.
  unfold dataURL. rewrite <- !app_assoc. reflexivity.
Qed.

Lemma onloadend_dataURL mediatype payload :
  forallb notComma mediatype = true ->
  forallb isBase64 payload = true ->
  onloadend (Some (dataURL mediatype payload)) = Some payload
  /\ Js.afterFirstComma (dataURL mediatype payload) = Some payload.
Proof.
  intros Hm Hp.
  assert (Hh : forallb notComma
                 (Js.lit "data:" ++ mediatype ++ Js.lit ";base64") = true).
  { rewrite !forallb_app, Hm. reflexivity. }
  split.
  - unfold onloadend.
    replace (Js.truthy (dataURL mediatype payload)) with true by reflexivity.
    rewrite dataURL_header, (split_at_comma _ _ Hh).
    rewrite (split_comma_free _ (base64_comma_free _ Hp)). reflexivity.
  - rewrite dataURL_header. apply afterFirstComma_at_comma, Hh.
Qed.

End Commas.

(** ** The scan of the response *)

Lemma scanParts_passedOver pre rest :
  forallb passedOver pre = true -> scanParts (pre ++ rest) = scanParts rest.
Proof.
  induction pre as [|part pre IH]; cbn [forallb app]; intros H; [reflexivity|].
  apply andb_prop in H as [Hp Hpre].
  cbn [scanParts]. unfold passedOver in Hp.
  destruct (inlineData part) as [blob|]; [|exact (IH Hpre)].
  destruct (mimeType blob) as [mt|]; [|discriminate Hp].
  apply negb_true_iff in Hp. rewrite Hp. exact (IH Hpre).
Qed.

(** The scan returns the data URI of the first image part, when the parts
    before it are ones it passes over. *)
Lemma scanParts_first_image pre part post blob mt :
  forallb passedOver pre = true ->
  inlineData part = Some blob ->
  mimeType blob = Some mt ->
  Js.startsWith mt (Js.lit "image/") = true ->
  scanParts (pre ++ part :: post) = Fulfilled (dataURI mt blob).
Proof.
  intros Hpre Hb Hmt Himg.
  rewrite (scanParts_passedOver _ _ Hpre).
  cbn [scanParts]. rewrite Hb, Hmt, Himg. reflexivity.
Qed.

(** With nothing but parts it passes over, the scan ends in the no-image
    error. *)
Lemma scanParts_no_image ps :
  forallb passedOver ps = true -> scanParts ps = Rejected noImageError.
Proof.
  intros H. rewrite <- (app_nil_r ps), (scanParts_passedOver _ _ H).
  reflexivity.
Qed.

(** Inline data without a mime type stops the scan with a [TypeError]. *)
Lemma scanParts_untyped_blob pre part post blob :
  forallb passedOver pre = true ->
  inlineData part = Some blob ->
  mimeType blob = None ->
  scanParts (pre ++ part :: post) = Rejected TypeError.
Proof.
  intros Hpre Hb Hmt.
  rewrite (scanParts_passedOver _ _ Hpre).
  cbn [scanParts]. rewrite Hb, Hmt. reflexivity.
Qed.

(** A scan that fails does so with the no-image error or a [TypeError]. *)
Lemma scanParts_rejected ps e :
  scanParts ps = Rejected e -> e = noImageError \/ e = TypeError.
Proof.
  induction ps as [|part ps IH]; cbn [scanParts]; intros H.
  - left. congruence.
  - destruct (inlineData part) as [blob|]; [|exact (IH H)].
    destruct (mimeType blob) as [mt|]; [|right; congruence].
    destruct (Js.startsWith mt (Js.lit "image/")); [discriminate H|exact (IH H)].
Qed.

Lemma scanParts_never_pending ps : scanParts ps <> Pending.
Proof.
  induction ps as [|part ps IH]; cbn [scanParts]; [discriminate|].
  destruct (inlineData part) as [blob|]; [|exact IH].
  destruct (mimeType blob) as [mt|]; [|discriminate].
  destruct (Js.startsWith mt (Js.lit "image/")); [discriminate|exact IH].
Qed.

Lemma lacksParts_responseParts response :
  lacksParts response -> responseParts response = [].
Proof.
  unfold lacksParts, responseParts.
  intros [H | [H | (c & cs & H & [Hc | (ct & Hc & Hp)])]]; rewrite H;
    try reflexivity; rewrite Hc; [reflexivity | rewrite Hp; reflexivity].
Qed.

(** ** Properties of [processImage] and [fileToGenerativePart] *)

(** C1, at a response the scan does not survive: the API answers with a
    part whose inline data has no mime type, followed by an image part.
    The first image part is the second part, and the claim has
    [processImage] pass over the first and return
    "data:image/png;base64,AAAA"; the code reads [startsWith] off the
    missing mime type and rejects with a [TypeError]. *)
Example processImage_untyped_blob_before_image :
  map passedOver (responseParts untypedBlobResponse) = [false; false]
  /\ map isImagePart (responseParts untypedBlobResponse) = [false; true]
  /\ snd (processImage transparentPrompt cat None
            (worldAnswering (Fulfilled untypedBlobResponse)))
     = Rejected TypeError
  /\ snd (processImage transparentPrompt cat None
            (worldAnswering (Fulfilled imageResponse)))
     = Fulfilled (Js.lit "data:image/png;base64,AAAA").
Proof.
  repeat split; vm_compute; reflexivity.
Qed.

(** C8: when the API call is fulfilled with a response whose [candidates]
    is absent or empty, or whose first candidate has no [content] or no
    [parts], [processImage] rejects with its no-image error: the optional
    chain yields the empty list and the scan finds nothing. *)
Theorem processImage_response_without_parts p o bg w k ey ps response :
  API_KEY w = Some (k :: ey) ->
  requestParts w p o bg = Some ps ->
  generateContent w (k :: ey) (request ps) = Fulfilled response ->
  lacksParts response ->
  responseParts response = []
  /\ processImage p o bg w
     = (reads w o bg ++ [GenerateContent (k :: ey) (request ps)],
        Rejected (Error noImageMessage)).
Proof.
  intros Hkey Hps Hresp Hlacks.
  pose proof (lacksParts_responseParts _ Hlacks) as Hnil.
  split; [exact Hnil|].
  rewrite processImage_run, Hkey, Hps, Hresp.
  cbn [afterResponse]. rewrite Hnil. reflexivity.
Qed.

Lemma processImage_response_without_parts_witness :
  processImage transparentPrompt cat None
    (worldAnswering (Fulfilled {| candidates := None |}))
  = ([ReadAsDataURL cat;
      GenerateContent (Js.lit "secret")
        (request [imagePart cat (Some catURL); textPart transparentPrompt])],
     Rejected (Error noImageMessage)).
Proof.
  refine (proj2 (processImage_response_without_parts
                   transparentPrompt cat None
                   (worldAnswering (Fulfilled {| candidates := None |}))
                   115%N (tl (Js.lit "secret"))
                   [imagePart cat (Some catURL); textPart transparentPrompt]
                   {| candidates := None |} _ _ _ _)).
  - reflexivity.
  - reflexivity.
  - reflexivity.
  - left. reflexivity.
Defined.

(** C9: while [API_KEY] is unset or empty, [processImage] rejects with
    "API_KEY environment variable not set" and its log is empty: no file
    was read and no request was issued. *)
Theorem processImage_without_api_key p o bg w :
  Js.truthy_opt (API_KEY w) = false ->
  processImage p o bg w
  = ([], Rejected (Error (Js.lit "API_KEY environment variable not set"))).
Proof.
  intros H. rewrite processImage_run.
  destruct (API_KEY w) as [[|k ey]|]; try reflexivity.
  discriminate H.
Qed.

Lemma processImage_without_api_key_witness :
  processImage transparentPrompt cat (Some beach) worldWithoutKey
  = ([], Rejected (Error (Js.lit "API_KEY environment variable not set"))).
Proof.
  apply (processImage_without_api_key transparentPrompt cat (Some beach)
           worldWithoutKey).
  reflexivity.
Defined.

(** C10: once [loadend] fires, [fileToGenerativePart] resolves with a part
    carrying the file's type; it does not reject. When the reader's
    result is [null] or empty the data is the empty string, and when it
    is a base64 data URL the data is what follows its first comma. *)
Theorem fileToGenerativePart_resolves f w result :
  loadend w f = Some result ->
  exists d,
    fileToGenerativePart f w
    = ([ReadAsDataURL f],
       Fulfilled {| inlineData := Some {| data := d;
                                          mimeType := Some (fileType f) |};
                    text := None |})
    /\ (Js.truthy_opt result = false -> d = Some [])
    /\ (forall mediatype payload,
          result = Some (dataURL mediatype payload) ->
          forallb notComma mediatype = true ->
          forallb isBase64 payload = true ->
          d = Some payload
          /\ Js.afterFirstComma (dataURL mediatype payload) = Some payload).
Proof.
  intros Hload. exists (onloadend result).
  rewrite fileToGenerativePart_run, Hload.
  split; [reflexivity|]. split.
  - destruct result as [[|c s]|]; cbn; intros H;
      [reflexivity | discriminate H | reflexivity].
  - intros mediatype payload -> Hm Hp. apply onloadend_dataURL; assumption.
Qed.

Lemma fileToGenerativePart_resolves_witness :
  snd (fileToGenerativePart cat worldEmptyRead)
  = Fulfilled (blobPart (Some []) (Some (Js.lit "image/png")))
  /\ snd (fileToGenerativePart cat (worldAnswering Pending))
     = Fulfilled (blobPart (Some (Js.lit "iVBORw==")) (Some (Js.lit "image/png"))).
Proof.
  split.
  - destruct (fileToGenerativePart_resolves cat worldEmptyRead None eq_refl)
      as (d & Hrun & Hempty & _).
    rewrite Hrun, (Hempty eq_refl). reflexivity.
  - destruct (fileToGenerativePart_resolves cat (worldAnswering Pending)
                (Some catURL) eq_refl) as (d & Hrun & _ & Hurl).
    destruct (Hurl (Js.lit "image/png") (Js.lit "iVBORw==")
                eq_refl eq_refl eq_refl) as [Hd _].
    rewrite Hrun, Hd. reflexivity.
Defined.

(** The requests in the log of a run are the one built from the encoded
    files and the prompt. *)
Lemma reads_no_request w o bg : filter isRequest (reads w o bg) = [].
Proof.
  unfold reads. destruct (loadend w o), bg; reflexivity.
Qed.

Lemma processImage_requests p o bg w key params :
  In (GenerateContent key params) (fst (processImage p o bg w)) ->
  exists ps, requestParts w p o bg = Some ps /\ params = request ps.
Proof.
  rewrite processImage_run. intros H.
  assert (Hreads : ~ In (GenerateContent key params) (reads w o bg)).
  { intros Hin.
    assert (Hf : In (GenerateContent key params)
                   (filter isRequest (reads w o bg)))
      by (apply filter_In; split; [exact Hin | reflexivity]).
    rewrite reads_no_request in Hf. exact Hf. }
  destruct (API_KEY w) as [[|k ey]|]; cbn [fst] in H; try contradiction.
  destruct (requestParts w p o bg) as [ps|]; cbn [fst] in H;
    [|contradiction].
  apply in_app_or in H as [H | [H | []]]; [contradiction|].
  exists ps. split; [reflexivity | congruence].
Qed.

Lemma requestParts_shape w p o bg ps :
  requestParts w p o bg = Some ps ->
  exists r1, loadend w o = Some r1
    /\ match bg with
       | None => ps = [imagePart o r1; textPart p]
       | Some b =>
           exists r2, loadend w b = Some r2
             /\ ps = [imagePart o r1; imagePart b r2; textPart p]
       end.
Proof.
  unfold requestParts. destruct (loadend w o) as [r1|]; [|discriminate].
  intros H. exists r1. split; [reflexivity|].
  destruct bg as [b|].
  - destruct (loadend w b) as [r2|]; [|discriminate].
    exists r2. split; [reflexivity | congruence].
  - congruence.
Qed.

(** C2: the payload of a request [processImage] sends is the encoded
    original image, then the encoded background image if one was given,
    then the prompt as the only text part, last; so it holds one text part
    and one or two inline images, two exactly when a background image was
    passed. *)
Theorem processImage_request_payload p o bg w key params :
  In (GenerateContent key params) (fst (processImage p o bg w)) ->
  (exists r1, loadend w o = Some r1
     /\ match bg with
        | None => contents params = [imagePart o r1; textPart p]
        | Some b =>
            exists r2, loadend w b = Some r2
              /\ contents params = [imagePart o r1; imagePart b r2; textPart p]
        end)
  /\ List.length (filter hasText (contents params)) = 1
  /\ last (contents params) (textPart []) = textPart p
  /\ List.length (filter hasInlineData (contents params))
     = match bg with None => 1 | Some _ => 2 end.
Proof.
  intros H.
  destruct (processImage_requests _ _ _ _ _ _ H) as (ps & Hps & ->).
  destruct (requestParts_shape _ _ _ _ _ Hps) as (r1 & Hr1 & Hshape).
  cbn [contents request].
  destruct bg as [b|].
  - destruct Hshape as (r2 & Hr2 & ->).
    split; [exists r1; split; [exact Hr1 | exists r2; split; [exact Hr2 | reflexivity]]|].
    repeat split; reflexivity.
  - subst ps.
    split; [exists r1; split; [exact Hr1 | reflexivity]|].
    repeat split; reflexivity.
Qed.

Lemma processImage_request_payload_witness :
  List.length (filter hasText
     [imagePart cat (Some catURL); imagePart beach (Some catURL);
      textPart customBackgroundPrompt]) = 1
  /\ List.length (filter hasInlineData
     [imagePart cat (Some catURL); imagePart beach (Some catURL);
      textPart customBackgroundPrompt]) = 2.
Proof.
  destruct (processImage_request_payload customBackgroundPrompt cat (Some beach)
              (worldAnswering (Fulfilled imageResponse)) (Js.lit "secret")
              (request [imagePart cat (Some catURL); imagePart beach (Some catURL);
                        textPart customBackgroundPrompt]))
    as (_ & Htext & _ & Himages).
  - vm_compute. right. right. left. reflexivity.
  - split; [exact Htext | exact Himages].
Defined.

Lemma requestCount_app l l' :
  requestCount (l ++ l') = requestCount l + requestCount l'.
Proof.
  unfold requestCount. rewrite filter_app, length_app. reflexivity.
Qed.

Lemma requestParts_complete w p o bg :
  encodingsComplete w o bg
  = match requestParts w p o bg with Some _ => true | None => false end.
Proof.
  unfold encodingsComplete, requestParts.
  destruct (loadend w o); [|reflexivity].
  destruct bg as [b|]; [destruct (loadend w b)|]; reflexivity.
Qed.

(** C7: a run of [processImage] issues the [generateContent] request once
    when the API key is set and the file encodings complete, and not at
    all otherwise, whatever the API answers: a rejection or a response
    without an image is not followed by a second request. *)
Theorem processImage_single_request p o bg w :
  requestCount (fst (processImage p o bg w))
  = (if Js.truthy_opt (API_KEY w) && encodingsComplete w o bg then 1 else 0)
  /\ requestCount (fst (processImage p o bg w)) <= 1.
Proof.
  assert (Heq : requestCount (fst (processImage p o bg w))
                = if Js.truthy_opt (API_KEY w) && encodingsComplete w o bg
                  then 1 else 0).
  { rewrite processImage_run, (requestParts_complete w p o bg).
    destruct (API_KEY w) as [[|k ey]|]; try reflexivity.
    cbn [Js.truthy_opt Js.truthy andb].
    destruct (requestParts w p o bg) as [ps|]; cbn [fst].
    - rewrite requestCount_app. unfold requestCount at 1.
      rewrite reads_no_request. reflexivity.
    - unfold requestCount. rewrite reads_no_request. reflexivity. }
  split; [exact Heq|].
  rewrite Heq. destruct (_ && _); lia.
Qed.

(** ** Properties of [handleProcessImage] *)

(** Where the handler goes on to call [processImage], it has set the
    loading flag and cleared error and result. *)
Lemma handleProcessImage_start_call st st1 c :
  handleProcessImage_start st = (st1, Some c) ->
  isLoading st1 = true /\ error st1 = None /\ resultImage st1 = None
  /\ originalImage st1 = originalImage st.
Proof.
  unfold handleProcessImage_start.
  destruct (originalImage st) as [o|] eqn:Ho; [|discriminate].
  cbn [mode prompt backgroundImage setResultImage setError setIsLoading].
  destruct (mode st).
  - intros [= <- _]. cbn. auto.
  - destruct (negb _); [discriminate|]. intros [= <- _]. cbn. auto.
  - destruct (backgroundImage st); [|discriminate]. intros [= <- _]. cbn. auto.
Qed.

(** Where it returns before the call, it shows a validation message and
    leaves the loading flag as it found it, or cleared. *)
Lemma handleProcessImage_start_return st st1 :
  handleProcessImage_start st = (st1, None) ->
  (error st1 = Some msgNoOriginal \/ error st1 = Some msgNoPrompt
   \/ error st1 = Some msgNoBackground)
  /\ (isLoading st1 = isLoading st \/ isLoading st1 = false)
  /\ originalImage st1 = originalImage st.
Proof.
  unfold handleProcessImage_start.
  destruct (originalImage st) as [o|] eqn:Ho.
  - cbn [mode prompt backgroundImage setResultImage setError setIsLoading].
    destruct (mode st).
    + discriminate.
    + destruct (negb _); [|discriminate]. intros [= <-]. cbn. auto.
    + destruct (backgroundImage st); [discriminate|]. intros [= <-]. cbn. auto.
  - intros [= <-]. cbn. auto.
Qed.

Lemma handleProcessImage_run st w :
  handleProcessImage st w
  = match handleProcessImage_start st with
    | (st1, None) => ([], st1)
    | (st1, Some c) =>
        (fst (processImage (apiPrompt c) (image c) (bgImage c) w)
         ++ fst (handleProcessImage_settled
                   (snd (processImage (apiPrompt c) (image c) (bgImage c) w)) st1),
         snd (handleProcessImage_settled
                (snd (processImage (apiPrompt c) (image c) (bgImage c) w)) st1))
    end.
Proof.
  unfold handleProcessImage.
  destruct (handleProcessImage_start st) as [st1 [c|]]; [|reflexivity].
  destruct (processImage _ _ _ w) as [log r]. cbn [fst snd].
  destruct (handleProcessImage_settled r st1). reflexivity.
Qed.

Lemma truthy_nonempty (s : Js.str) : Js.truthy s = true <-> s <> [].
Proof.
  destruct s; cbn; split; intros H; congruence.
Qed.

Lemma processImage_request_iff p o bg w key params :
  In (GenerateContent key params) (fst (processImage p o bg w))
  <-> API_KEY w = Some key /\ key <> []
      /\ exists ps, requestParts w p o bg = Some ps /\ params = request ps.
Proof.
  split.
  - intros H.
    destruct (processImage_requests _ _ _ _ _ _ H) as (ps & Hps & ->).
    revert H. rewrite processImage_run, Hps.
    destruct (API_KEY w) as [[|k ey]|]; cbn [fst]; try contradiction.
    intros H. apply in_app_or in H as [H | [H | []]].
    + assert (Hf : In (GenerateContent key (request ps))
                     (filter isRequest (reads w o bg)))
        by (apply filter_In; split; [exact H | reflexivity]).
      rewrite reads_no_request in Hf. contradiction.
    + injection H as <-.
      split; [reflexivity|]. split; [discriminate|].
      exists ps. split; reflexivity.
  - intros (Hkey & Hne & ps & Hps & ->).
    rewrite processImage_run, Hkey, Hps.
    destruct key as [|k ey]; [contradiction|]. cbn [fst].
    apply in_or_app. right. left. reflexivity.
Qed.

Lemma requestParts_iff w p o bg ps :
  requestParts w p o bg = Some ps
  <-> exists r1, loadend w o = Some r1
        /\ match bg with
           | None => ps = [imagePart o r1; textPart p]
           | Some b =>
               exists r2, loadend w b = Some r2
                 /\ ps = [imagePart o r1; imagePart b r2; textPart p]
           end.
Proof.
  split; [apply requestParts_shape|].
  unfold requestParts. intros (r1 & Hr1 & H). rewrite Hr1.
  destruct bg as [b|].
  - destruct H as (r2 & Hr2 & ->). rewrite Hr2. reflexivity.
  - subst ps. reflexivity.
Qed.

(** The requests in the log of the handler are those of its call of
    [processImage]. *)
Lemma handleProcessImage_requests st w key params :
  In (GenerateContent key params) (fst (handleProcessImage st w))
  <-> exists c, snd (handleProcessImage_start st) = Some c
        /\ In (GenerateContent key params)
              (fst (processImage (apiPrompt c) (image c) (bgImage c) w)).
Proof.
  rewrite handleProcessImage_run.
  destruct (handleProcessImage_start st) as [st1 [c|]]; cbn [fst snd].
  - split.
    + intros H. exists c. split; [reflexivity|].
      apply in_app_or in H as [H | H]; [exact H|].
      destruct (snd (processImage _ _ _ w)); cbn in H; try contradiction.
      destruct H as [H | []]. discriminate H.
    + intros (c' & [= <-] & H). apply in_or_app. left. exact H.
  - split; [intros [] | intros (c & H & _); discriminate H].
Qed.

(** C4: there are three modes. With an original image present, the handler
    calls [processImage] in TRANSPARENT mode with the fixed isolate-subject
    prompt and no background image; in AI_BACKGROUND mode only when the
    prompt is non-empty after trimming, with a prompt that embeds the
    user's text and no background image; in CUSTOM_BACKGROUND mode only
    when a background image was uploaded, passing it as the second image.
    The run of the handler is that call followed by its settling, and
    the requests in its log are exactly these: the original image and the
    mode's prompt, with the uploaded background image as second image in
    CUSTOM_BACKGROUND mode and in no other. *)
Theorem handleProcessImage_modes st o :
  originalImage st = Some o ->
  (forall m, m = TRANSPARENT \/ m = AI_BACKGROUND \/ m = CUSTOM_BACKGROUND)
  /\ match mode st with
     | TRANSPARENT =>
         snd (handleProcessImage_start st)
         = Some {| apiPrompt := transparentPrompt; image := o; bgImage := None |}
     | AI_BACKGROUND =>
         (Js.trim (prompt st) = [] -> snd (handleProcessImage_start st) = None)
         /\ (Js.trim (prompt st) <> [] ->
             snd (handleProcessImage_start st)
             = Some {| apiPrompt :=
                         Js.lit "Replace the background of the image with the following scene: "
                         ++ prompt st
                         ++ Js.lit ". Keep the main subject from the original image.";
                       image := o; bgImage := None |})
     | CUSTOM_BACKGROUND =>
         match backgroundImage st with
         | None => snd (handleProcessImage_start st) = None
         | Some b =>
             snd (handleProcessImage_start st)
             = Some {| apiPrompt := customBackgroundPrompt; image := o;
                       bgImage := Some b |}
         end
     end
  /\ (forall w key params,
        In (GenerateContent key params) (fst (handleProcessImage st w)) ->
        List.length (filter hasInlineData (contents params))
        = match mode st with CUSTOM_BACKGROUND => 2 | _ => 1 end)
  /\ (forall w,
        handleProcessImage st w
        = match snd (handleProcessImage_start st) with
          | None => ([], fst (handleProcessImage_start st))
          | Some c =>
              (fst (processImage (apiPrompt c) (image c) (bgImage c) w)
               ++ fst (handleProcessImage_settled
                         (snd (processImage (apiPrompt c) (image c) (bgImage c) w))
                         (setResultImage None (setError None (setIsLoading true st)))),
               snd (handleProcessImage_settled
                      (snd (processImage (apiPrompt c) (image c) (bgImage c) w))
                      (setResultImage None (setError None (setIsLoading true st)))))
          end)
  /\ (forall w key params,
        In (GenerateContent key params) (fst (handleProcessImage st w))
        <-> API_KEY w = Some key /\ key <> []
            /\ exists r1, loadend w o = Some r1
                 /\ match mode st with
                    | TRANSPARENT =>
                        params = request [imagePart o r1; textPart transparentPrompt]
                    | AI_BACKGROUND =>
                        Js.trim (prompt st) <> []
                        /\ params
                           = request
                               [imagePart o r1;
                                textPart
                                  (Js.lit "Replace the background of the image with the following scene: "
                                   ++ prompt st
                                   ++ Js.lit ". Keep the main subject from the original image.")]
                    | CUSTOM_BACKGROUND =>
                        exists b r2,
                          backgroundImage st = Some b
                          /\ loadend w b = Some r2
                          /\ params
                             = request [imagePart o r1; imagePart b r2;
                                        textPart customBackgroundPrompt]
                    end).
Proof.
  intros Ho.
  split; [intros []; auto|].
  assert (Hstart :
    handleProcessImage_start st
    = let st' := setResultImage None (setError None (setIsLoading true st)) in
      match mode st with
      | TRANSPARENT =>
          (st', Some {| apiPrompt := transparentPrompt; image := o; bgImage := None |})
      | AI_BACKGROUND =>
          if negb (Js.truthy (Js.trim (prompt st)))
          then (setIsLoading false (setError (Some msgNoPrompt) st'), None)
          else (st', Some {| apiPrompt := aiBackgroundPrompt (prompt st);
                             image := o; bgImage := None |})
      | CUSTOM_BACKGROUND =>
          match backgroundImage st with
          | None => (setIsLoading false (setError (Some msgNoBackground) st'), None)
          | Some b =>
              (st', Some {| apiPrompt := customBackgroundPrompt; image := o;
                            bgImage := Some b |})
          end
      end).
  { unfold handleProcessImage_start. rewrite Ho. reflexivity. }
  split; [|split; [|split]].
  - rewrite Hstart. cbv zeta. destruct (mode st).
    + reflexivity.
    + split; intros Ht.
      * rewrite Ht. reflexivity.
      * apply truthy_nonempty in Ht. rewrite Ht. reflexivity.
    + destruct (backgroundImage st); reflexivity.
  - intros w key params Hin.
    apply handleProcessImage_requests in Hin as (c & Hc & Hin).
    apply processImage_request_iff in Hin as (_ & _ & ps & Hps & ->).
    destruct (requestParts_shape _ _ _ _ _ Hps) as (r1 & _ & Hshape).
    rewrite Hstart in Hc. cbv zeta in Hc.
    destruct (mode st).
    + injection Hc as <-. cbn in Hshape. subst ps. reflexivity.
    + destruct (negb _); [discriminate Hc|].
      injection Hc as <-. cbn in Hshape. subst ps. reflexivity.
    + destruct (backgroundImage st); [|discriminate Hc].
      injection Hc as <-. cbn in Hshape.
      destruct Hshape as (r2 & _ & ->). reflexivity.
  - intros w. rewrite handleProcessImage_run, Hstart. cbv zeta.
    destruct (mode st).
    + reflexivity.
    + destruct (negb _); reflexivity.
    + destruct (backgroundImage st); reflexivity.
  - intros w key params.
    rewrite handleProcessImage_requests, Hstart. cbv zeta.
    split.
    + intros (c & Hc & Hin).
      apply processImage_request_iff in Hin as (Hkey & Hne & ps & Hps & ->).
      split; [exact Hkey|]. split; [exact Hne|].
      apply requestParts_iff in Hps as (r1 & Hr1 & Hshape).
      destruct (mode st).
      * injection Hc as <-. cbn [apiPrompt image bgImage] in *.
        exists r1. split; [exact Hr1 | subst ps; reflexivity].
      * destruct (Js.trim (prompt st)) as [|ch tr] eqn:Htrim;
          cbn [Js.truthy negb snd] in Hc; [discriminate Hc|].
        injection Hc as <-. cbn [apiPrompt image bgImage] in *.
        exists r1. split; [exact Hr1|]. split; [discriminate | subst ps; reflexivity].
      * destruct (backgroundImage st) as [b|]; [|discriminate Hc].
        injection Hc as <-. cbn [apiPrompt image bgImage] in *.
        destruct Hshape as (r2 & Hr2 & ->).
        exists r1. split; [exact Hr1|]. exists b, r2. auto.
    + intros (Hkey & Hne & r1 & Hr1 & Hmode).
      destruct (mode st).
      * eexists. split; [reflexivity|]. cbn [apiPrompt image bgImage].
        apply processImage_request_iff. split; [exact Hkey|]. split; [exact Hne|].
        eexists. split; [|exact Hmode].
        apply requestParts_iff. exists r1. split; [exact Hr1 | reflexivity].
      * destruct Hmode as (Htrim & ->).
        apply truthy_nonempty in Htrim. rewrite Htrim. cbn [negb snd].
        eexists. split; [reflexivity|]. cbn [apiPrompt image bgImage].
        apply processImage_request_iff. split; [exact Hkey|]. split; [exact Hne|].
        eexists. split; [|reflexivity].
        apply requestParts_iff. exists r1. split; [exact Hr1 | reflexivity].
      * destruct Hmode as (b & r2 & Hb & Hr2 & ->). rewrite Hb. cbn [snd].
        eexists. split; [reflexivity|]. cbn [apiPrompt image bgImage].
        apply processImage_request_iff. split; [exact Hkey|]. split; [exact Hne|].
        eexists. split; [|reflexivity].
        apply requestParts_iff. exists r1. split; [exact Hr1|].
        exists r2. split; [exact Hr2 | reflexivity].
Qed.

Lemma handleProcessImage_modes_witness :
  snd (handleProcessImage_start
         (stateWith CUSTOM_BACKGROUND (Some beach) []))
  = Some {| apiPrompt := customBackgroundPrompt; image := cat;
            bgImage := Some beach |}
  /\ In (GenerateContent (Js.lit "secret")
           (request [imagePart cat (Some catURL); imagePart beach (Some catURL);
                     textPart customBackgroundPrompt]))
        (fst (handleProcessImage (stateWith CUSTOM_BACKGROUND (Some beach) [])
                (worldAnswering (Fulfilled imageResponse)))).
Proof.
  destruct (handleProcessImage_modes
              (stateWith CUSTOM_BACKGROUND (Some beach) []) cat eq_refl)
    as (_ & Hcall & _ & _ & Hreq).
  split; [exact Hcall|].
  apply Hreq.
  split; [reflexivity|]. split; [discriminate|].
  exists (Some catURL). split; [reflexivity|].
  exists beach, (Some catURL). repeat split; reflexivity.
Defined.

(** C5, at a rejection that carries no object: the API call rejects with
    [undefined] (or [null]), so [processImage] rejects with that value.
    The claim has the handler map the exception to a user-facing message,
    the fallback when there is no message; the code logs the value, then
    reads [e.message] off it inside [catch], which throws: [setError] is
    not reached, the error stays [null] and the view shows no message.
    The loading flag is cleared by [finally] and no result is set. For a
    rejection with an [Error] the message is shown, as the claim says. *)
Example handleProcessImage_nullish_rejection :
  snd (processImage transparentPrompt cat None (worldAnswering (Rejected Nullish)))
  = Rejected Nullish
  /\ fst (handleProcessImage (stateWith TRANSPARENT None [])
            (worldAnswering (Rejected Nullish)))
     = [ReadAsDataURL cat;
        GenerateContent (Js.lit "secret")
          (request [imagePart cat (Some catURL); textPart transparentPrompt]);
        ConsoleError Nullish]
  /\ error (snd (handleProcessImage (stateWith TRANSPARENT None [])
                   (worldAnswering (Rejected Nullish)))) = None
  /\ errorText (render (snd (handleProcessImage (stateWith TRANSPARENT None [])
                               (worldAnswering (Rejected Nullish))))) = None
  /\ resultImage (snd (handleProcessImage (stateWith TRANSPARENT None [])
                         (worldAnswering (Rejected Nullish)))) = None
  /\ isLoading (snd (handleProcessImage (stateWith TRANSPARENT None [])
                       (worldAnswering (Rejected Nullish)))) = false
  /\ error (snd (handleProcessImage (stateWith TRANSPARENT None [])
                   (worldAnswering (Rejected (Error (Js.lit "quota exceeded"))))))
     = Some (Js.lit "quota exceeded").
Proof.
  repeat split; vm_compute; reflexivity.
Qed.

(** X18: when [processImage] rejects with anything but [null] or
    [undefined], the handler ends with the error set to the value's
    message, or to the fixed fallback when the message is empty or
    missing, with no result image and the loading flag cleared. *)
Theorem handleProcessImage_rejected st st1 c w log e :
  handleProcessImage_start st = (st1, Some c) ->
  processImage (apiPrompt c) (image c) (bgImage c) w = (log, Rejected e) ->
  e <> Nullish ->
  error (snd (handleProcessImage st w)) = Some (userMessage e)
  /\ resultImage (snd (handleProcessImage st w)) = None
  /\ isLoading (snd (handleProcessImage st w)) = false
  /\ (forall m, messageOf e = Some m -> m <> [] -> userMessage e = m)
  /\ (messageOf e = Some [] \/ messageOf e = None -> userMessage e = msgUnexpected).
Proof.
  intros Hstart Hrun Hobj.
  destruct (handleProcessImage_start_call _ _ _ Hstart) as (_ & _ & Hres & _).
  assert (Hp : hasProperties e = true) by (destruct e; [reflexivity ..|contradiction]).
  rewrite handleProcessImage_run, Hstart, Hrun.
  cbn [fst snd handleProcessImage_settled]. rewrite Hp. cbn.
  repeat split.
  - exact Hres.
  - intros m Hm Hne. unfold userMessage. rewrite Hm.
    apply truthy_nonempty in Hne. rewrite Hne. reflexivity.
  - unfold userMessage. intros [-> | ->]; reflexivity.
Qed.

Lemma handleProcessImage_rejected_witness :
  error (snd (handleProcessImage (stateWith TRANSPARENT None [])
                (worldAnswering (Rejected (Error (Js.lit "quota exceeded"))))))
  = Some (Js.lit "quota exceeded").
Proof.
  destruct (handleProcessImage_rejected
              (stateWith TRANSPARENT None [])
              (setResultImage None (setError None (setIsLoading true
                 (stateWith TRANSPARENT None []))))
              {| apiPrompt := transparentPrompt; image := cat; bgImage := None |}
              (worldAnswering (Rejected (Error (Js.lit "quota exceeded"))))
              [ReadAsDataURL cat;
               GenerateContent (Js.lit "secret")
                 (request [imagePart cat (Some catURL); textPart transparentPrompt])]
              (Error (Js.lit "quota exceeded")) eq_refl eq_refl
              ltac:(discriminate))
    as (Herr & _).
  rewrite Herr. reflexivity.
Defined.

(** C3, as stated, fails: in AI_BACKGROUND mode with a blank prompt the
    handler shows its own validation message without any request, so no
    rejected API call stands behind the error. *)
Lemma blank_prompt_error_without_request :
  ~ errorsOnlyFromApi (stateWith AI_BACKGROUND None (Js.lit "  "))
      (worldAnswering (Fulfilled imageResponse)).
Proof.
  intros H.
  destruct (H msgNoPrompt eq_refl) as (key & params & e & Hin & _).
  exact Hin.
Qed.

(** C3, amended: an error the handler displays is either one of its three
    validation messages, shown without any call, or the message (or the
    fallback) of a rejection of [processImage]; and [processImage] rejects
    because the API key is unset, because the API call was rejected, or
    because the scan of a fulfilled response did not return an image. *)
Theorem handleProcessImage_error_sources st w m :
  error (snd (handleProcessImage st w)) = Some m ->
  ((m = msgNoOriginal \/ m = msgNoPrompt \/ m = msgNoBackground)
   /\ snd (handleProcessImage_start st) = None
   /\ fst (handleProcessImage st w) = [])
  \/ exists c e,
       snd (handleProcessImage_start st) = Some c
       /\ snd (processImage (apiPrompt c) (image c) (bgImage c) w) = Rejected e
       /\ m = userMessage e
       /\ ((e = apiKeyError /\ Js.truthy_opt (API_KEY w) = false)
           \/ (exists key params,
                 In (GenerateContent key params) (fst (handleProcessImage st w))
                 /\ generateContent w key params = Rejected e)
           \/ (exists key params response,
                 In (GenerateContent key params) (fst (handleProcessImage st w))
                 /\ generateContent w key params = Fulfilled response
                 /\ scanParts (responseParts response) = Rejected e)).
Proof.
  rewrite handleProcessImage_run.
  destruct (handleProcessImage_start st) as [st1 [c|]] eqn:Hstart; cbn [fst snd].
  - destruct (handleProcessImage_start_call _ _ _ Hstart) as (_ & Herr & _).
    pose proof (processImage_run (apiPrompt c) (image c) (bgImage c) w) as Hrun.
    destruct (processImage (apiPrompt c) (image c) (bgImage c) w)
      as [log r] eqn:Hp.
    destruct r as [result | e |];
      cbn [handleProcessImage_settled fst snd error setIsLoading setError
           setResultImage];
      [intros H; congruence | | intros H; congruence].
    destruct (hasProperties e); cbn [error setError]; intros H; [|congruence].
    right. exists c, e. split; [reflexivity|].
    split; [rewrite Hp; reflexivity|].
    split; [congruence|].
    destruct (API_KEY w) as [[|k ey]|].
    + left. split; [congruence | reflexivity].
    + destruct (requestParts w (apiPrompt c) (image c) (bgImage c)) as [ps|];
        [|discriminate Hrun].
      assert (Hlog : log = reads w (image c) (bgImage c)
                           ++ [GenerateContent (k :: ey) (request ps)])
        by congruence.
      assert (Hres : Rejected e
                     = afterResponse (generateContent w (k :: ey) (request ps)))
        by congruence.
      clear Hrun.
      assert (Hin : In (GenerateContent (k :: ey) (request ps))
                      (log ++ [ConsoleError e])).
      { rewrite Hlog. apply in_or_app. left.
        apply in_or_app. right. left. reflexivity. }
      right.
      destruct (generateContent w (k :: ey) (request ps))
        as [response | e' |] eqn:Hapi;
        cbn [afterResponse] in Hres; [ | | discriminate Hres].
      * right. exists (k :: ey), (request ps), response. auto.
      * left. exists (k :: ey), (request ps). split; [exact Hin | congruence].
    + left. split; [congruence | reflexivity].
  - destruct (handleProcessImage_start_return _ _ Hstart) as (Hmsg & _).
    intros H. left. split; [|split; reflexivity].
    rewrite H in Hmsg.
    destruct Hmsg as [Hm | [Hm | Hm]]; injection Hm as ->; auto.
Qed.

Lemma handleProcessImage_error_sources_witness :
  snd (handleProcessImage_start (stateWith AI_BACKGROUND None (Js.lit "  ")))
  = None
  /\ fst (handleProcessImage (stateWith AI_BACKGROUND None (Js.lit "  "))
            (worldAnswering (Fulfilled imageResponse))) = [].
Proof.
  destruct (handleProcessImage_error_sources
              (stateWith AI_BACKGROUND None (Js.lit "  "))
              (worldAnswering (Fulfilled imageResponse))
              msgNoPrompt eq_refl)
    as [(_ & Hnone & Hlog) | (c & e & Hsome & _)].
  - split; [exact Hnone | exact Hlog].
  - discriminate Hsome.
Defined.

(** ** One request in flight *)

Lemma handleProcessImage_settled_loading r st :
  r <> Pending -> isLoading (snd (handleProcessImage_settled r st)) = false.
Proof.
  destruct r; intros H; [reflexivity | reflexivity | contradiction].
Qed.

Lemma enabled_not_loading st :
  isProcessButtonDisabled st = false -> isLoading st = false.
Proof.
  unfold isProcessButtonDisabled. intros H.
  apply orb_false_iff in H as [_ H]. exact H.
Qed.

(** In every reachable page the number of runs in flight is one while the
    loading flag is set and none while it is clear. *)
Lemma reachable_inFlight p :
  reachable p -> inFlight p = if isLoading (ui p) then 1 else 0.
Proof.
  induction 1 as [|p q Hreach IH Hstep]; [reflexivity|].
  inversion Hstep; subst; cbn [ui inFlight];
    try (exact IH).
  - match goal with
    | Hen : isProcessButtonDisabled _ = false,
      Hst : handleProcessImage_start _ = _ |- _ =>
        apply enabled_not_loading in Hen;
        destruct (handleProcessImage_start_return _ _ Hst) as (_ & [He | He] & _);
        rewrite IH, He; try rewrite Hen; reflexivity
    end.
  - match goal with
    | Hen : isProcessButtonDisabled _ = false,
      Hst : handleProcessImage_start _ = _ |- _ =>
        apply enabled_not_loading in Hen;
        destruct (handleProcessImage_start_call _ _ _ Hst) as (He & _);
        rewrite IH, He, Hen; reflexivity
    end.
  - match goal with
    | Hn : inFlight p = S _, Hr : _ <> Pending |- _ =>
        rewrite (handleProcessImage_settled_loading _ _ Hr);
        rewrite IH in Hn; destruct (isLoading (ui p)); congruence
    end.
Qed.

(** C6: in every reachable page at most one run of the handler is in
    flight; the process button is disabled while the loading flag is
    set, and the flag is set while a run is in flight, so no click
    starts a second run: every step from the page still leaves at most
    one in flight, and a step that starts a run leaves from a page with
    none. *)
Theorem single_request_in_flight p :
  reachable p ->
  inFlight p <= 1
  /\ (isLoading (ui p) = true -> isProcessButtonDisabled (ui p) = true)
  /\ (inFlight p = 1 -> isLoading (ui p) = true)
  /\ (forall q, step p q -> inFlight q <= 1)
  /\ (forall q, step p q -> inFlight q = S (inFlight p) -> inFlight p = 0).
Proof.
  intros Hreach. pose proof (reachable_inFlight _ Hreach) as Hinv.
  split; [rewrite Hinv; destruct (isLoading (ui p)); lia|].
  split; [intros Hl; unfold isProcessButtonDisabled; rewrite Hl;
          apply orb_true_r|].
  split; [rewrite Hinv; destruct (isLoading (ui p)); [reflexivity|discriminate]|].
  split.
  - intros q Hstep.
    rewrite (reachable_inFlight q (reachable_step _ _ Hreach Hstep)).
    destruct (isLoading (ui q)); lia.
  - intros q Hstep Hq.
    pose proof (reachable_inFlight q (reachable_step _ _ Hreach Hstep)) as Hinvq.
    rewrite Hinvq in Hq. destruct (isLoading (ui q)); lia.
Qed.

Lemma single_request_in_flight_witness :
  isProcessButtonDisabled
    (setResultImage None (setError None (setIsLoading true
       (setOriginalImage cat initialState)))) = true.
Proof.
  refine (proj1 (proj2 (single_request_in_flight
     {| ui := setResultImage None (setError None (setIsLoading true
                (setOriginalImage cat initialState)));
        inFlight := 1 |} _)) eq_refl).
  eapply reachable_step.
  - eapply reachable_step; [apply reachable_init|].
    apply (step_setOriginalImage cat).
  - apply (step_click_call
             {| ui := setOriginalImage cat initialState; inFlight := 0 |}
             _ {| apiPrompt := transparentPrompt; image := cat; bgImage := None |});
      reflexivity.
Defined.

(** ** Further properties of the service *)

Lemma startsWith_app_same a s p :
  Js.startsWith (a ++ s) (a ++ p) = Js.startsWith s p.
Proof.
  induction a as [|c a IH]; cbn [app Js.startsWith]; [reflexivity|].
  rewrite N.eqb_refl, IH. reflexivity.
Qed.

Lemma startsWith_app_more s rest p :
  Js.startsWith s p = true -> Js.startsWith (s ++ rest) p = true.
Proof.
  revert s. induction p as [|c p IH]; intros s H;
    [destruct s; [destruct rest|]; reflexivity|].
  destruct s as [|d s]; [discriminate H|].
  cbn [app Js.startsWith] in *.
  apply andb_prop in H as [Hd Hs]. rewrite Hd, (IH _ Hs). reflexivity.
Qed.

Lemma image_uri_prefix mt rest :
  Js.startsWith mt (Js.lit "image/") = true ->
  Js.startsWith (Js.lit "data:" ++ mt ++ rest) (Js.lit "data:image/") = true.
Proof.
  intros Himg.
  change (Js.lit "data:image/") with (Js.lit "data:" ++ Js.lit "image/").
  rewrite startsWith_app_same. apply startsWith_app_more, Himg.
Qed.

Lemma scanParts_fulfilled ps s :
  scanParts ps = Fulfilled s ->
  Js.startsWith s (Js.lit "data:image/") = true.
Proof.
  induction ps as [|part ps IH]; cbn [scanParts]; intros H; [discriminate H|].
  destruct (inlineData part) as [blob|]; [|exact (IH H)].
  destruct (mimeType blob) as [mt|]; [|discriminate H].
  destruct (Js.startsWith mt (Js.lit "image/")) eqn:Himg; [|exact (IH H)].
  injection H as <-.
  exact (image_uri_prefix mt (Js.lit ";base64," ++ Js.template (data blob)) Himg).
Qed.

Lemma processImage_fulfilled_scan p o bg w s :
  snd (processImage p o bg w) = Fulfilled s ->
  exists response, scanParts (responseParts response) = Fulfilled s.
Proof.
  rewrite processImage_run.
  destruct (API_KEY w) as [[|k ey]|]; cbn [snd]; try discriminate.
  destruct (requestParts w p o bg) as [ps|]; cbn [snd]; [|discriminate].
  destruct (generateContent w (k :: ey) (request ps)) as [response| |];
    cbn [afterResponse]; try discriminate.
  intros H. exists response. exact H.
Qed.

(** X1: whatever the API answers, a string [processImage] resolves with
    is a data URI of an image: it starts with "data:image/". *)
Theorem processImage_resolves_with_image_uri p o bg w s :
  snd (processImage p o bg w) = Fulfilled s ->
  Js.startsWith s (Js.lit "data:image/") = true /\ s <> [].
Proof.
  intros H. destruct (processImage_fulfilled_scan _ _ _ _ _ H) as (r & Hr).
  pose proof (scanParts_fulfilled _ _ Hr) as Hs.
  split; [exact Hs|]. intros ->. discriminate Hs.
Qed.

Lemma processImage_resolves_with_image_uri_witness :
  Js.startsWith (Js.lit "data:image/png;base64,AAAA") (Js.lit "data:image/") = true.
Proof.
  exact (proj1 (processImage_resolves_with_image_uri transparentPrompt cat None
                  (worldAnswering (Fulfilled imageResponse))
                  (Js.lit "data:image/png;base64,AAAA") eq_refl)).
Defined.

(** X2: when the API call is fulfilled and the parts before the first
    image part carry no inline data or inline data of another, stated
    type, [processImage] resolves with "data:<mimeType>;base64,<data>"
    built from that image part. *)
Theorem processImage_first_image p o bg w k ey ps response pre part post blob mt :
  API_KEY w = Some (k :: ey) ->
  requestParts w p o bg = Some ps ->
  generateContent w (k :: ey) (request ps) = Fulfilled response ->
  responseParts response = pre ++ part :: post ->
  forallb passedOver pre = true ->
  inlineData part = Some blob ->
  mimeType blob = Some mt ->
  Js.startsWith mt (Js.lit "image/") = true ->
  snd (processImage p o bg w)
  = Fulfilled (Js.lit "data:" ++ mt ++ Js.lit ";base64," ++ Js.template (data blob)).
Proof.
  intros Hkey Hps Hresp Hparts Hpre Hblob Hmt Himg.
  rewrite processImage_run, Hkey, Hps, Hresp. cbn [snd afterResponse].
  rewrite Hparts. exact (scanParts_first_image _ _ _ _ _ Hpre Hblob Hmt Himg).
Qed.

Lemma processImage_first_image_witness :
  snd (processImage transparentPrompt cat None
         (worldAnswering (Fulfilled imageResponse)))
  = Fulfilled (Js.lit "data:image/png;base64,AAAA").
Proof.
  exact (processImage_first_image transparentPrompt cat None
           (worldAnswering (Fulfilled imageResponse))
           115%N (tl (Js.lit "secret"))
           [imagePart cat (Some catURL); textPart transparentPrompt]
           imageResponse
           [textPart (Js.lit "Here you are")]
           (blobPart (Some (Js.lit "AAAA")) (Some (Js.lit "image/png")))
           []
           {| data := Some (Js.lit "AAAA"); mimeType := Some (Js.lit "image/png") |}
           (Js.lit "image/png")
           eq_refl eq_refl eq_refl eq_refl eq_refl eq_refl eq_refl eq_refl).
Defined.

Lemma scanParts_no_image_iff ps :
  scanParts ps = Rejected noImageError <-> forallb passedOver ps = true.
Proof.
  split; [|apply scanParts_no_image].
  induction ps as [|part ps IH]; cbn [scanParts forallb]; [reflexivity|].
  unfold passedOver at 1.
  destruct (inlineData part) as [blob|]; [|exact IH].
  destruct (mimeType blob) as [mt|]; [|discriminate].
  destruct (Js.startsWith mt (Js.lit "image/")); [discriminate|exact IH].
Qed.

(** X3: when the API call is fulfilled, [processImage] rejects with its
    no-image error exactly when every part of the response is one the scan
    passes over: text only, or inline data of a stated type that is not
    an image. *)
Theorem processImage_no_image_iff p o bg w k ey ps response :
  API_KEY w = Some (k :: ey) ->
  requestParts w p o bg = Some ps ->
  generateContent w (k :: ey) (request ps) = Fulfilled response ->
  (snd (processImage p o bg w) = Rejected (Error noImageMessage)
   <-> forallb passedOver (responseParts response) = true).
Proof.
  intros Hkey Hps Hresp.
  rewrite processImage_run, Hkey, Hps, Hresp. cbn [snd afterResponse].
  apply scanParts_no_image_iff.
Qed.

Lemma processImage_no_image_iff_witness :
  snd (processImage transparentPrompt cat None
         (worldAnswering (Fulfilled
            (responseOf [textPart (Js.lit "Sorry");
                         blobPart (Some (Js.lit "JVBERg=="))
                                  (Some (Js.lit "application/pdf"))]))))
  = Rejected (Error noImageMessage).
Proof.
  apply (processImage_no_image_iff transparentPrompt cat None
           (worldAnswering (Fulfilled
              (responseOf [textPart (Js.lit "Sorry");
                           blobPart (Some (Js.lit "JVBERg=="))
                                    (Some (Js.lit "application/pdf"))])))
           115%N (tl (Js.lit "secret"))
           [imagePart cat (Some catURL); textPart transparentPrompt]
           _ eq_refl eq_refl eq_refl).
  reflexivity.
Defined.

(** X4: every request [processImage] issues goes out under the key of the
    environment, which is not empty, names the model
    "gemini-2.5-flash-image-preview" and asks for the image and text
    modalities; and it is the last event of the run. *)
Theorem processImage_request_settings p o bg w key params :
  In (GenerateContent key params) (fst (processImage p o bg w)) ->
  API_KEY w = Some key /\ key <> []
  /\ model params = Js.lit "gemini-2.5-flash-image-preview"
  /\ responseModalities params = [IMAGE; TEXT]
  /\ exists before, fst (processImage p o bg w)
                    = before ++ [GenerateContent key params]
                    /\ filter isRequest before = [].
Proof.
  intros H.
  destruct (processImage_requests _ _ _ _ _ _ H) as (ps & Hps & ->).
  revert H. rewrite processImage_run, Hps.
  destruct (API_KEY w) as [[|k ey]|]; cbn [fst]; try contradiction.
  intros H. apply in_app_or in H as [H | [H | []]].
  - assert (Hf : In (GenerateContent key (request ps))
                   (filter isRequest (reads w o bg)))
      by (apply filter_In; split; [exact H | reflexivity]).
    rewrite reads_no_request in Hf. contradiction.
  - injection H as <-.
    repeat split; try reflexivity; [discriminate|].
    exists (reads w o bg). split; [reflexivity | apply reads_no_request].
Qed.

Lemma processImage_request_settings_witness :
  API_KEY (worldAnswering (Fulfilled imageResponse)) = Some (Js.lit "secret").
Proof.
  refine (proj1 (processImage_request_settings transparentPrompt cat None
                   (worldAnswering (Fulfilled imageResponse)) (Js.lit "secret")
                   (request [imagePart cat (Some catURL);
                             textPart transparentPrompt]) _)).
  vm_compute. right. left. reflexivity.
Defined.

(** X5: the promise of [processImage] stays pending exactly when the key
    is set and either a file read never ends or the API call never
    settles; the scan itself always ends. *)
Theorem processImage_pending_iff p o bg w :
  snd (processImage p o bg w) = Pending
  <-> Js.truthy_opt (API_KEY w) = true
      /\ match requestParts w p o bg with
         | None => True
         | Some ps =>
             exists key, API_KEY w = Some key
               /\ generateContent w key (request ps) = Pending
         end.
Proof.
  rewrite processImage_run.
  destruct (API_KEY w) as [[|k ey]|]; cbn [snd Js.truthy_opt Js.truthy].
  - split; [discriminate | intros [H _]; discriminate H].
  - destruct (requestParts w p o bg) as [ps|]; cbn [snd].
    + split.
      * intros H. split; [reflexivity|]. exists (k :: ey).
        split; [reflexivity|].
        destruct (generateContent w (k :: ey) (request ps)) as [response| |];
          cbn [afterResponse] in H; [|discriminate H|reflexivity].
        exfalso. exact (scanParts_never_pending _ H).
      * intros (_ & key & [= <-] & Hapi). rewrite Hapi. reflexivity.
    + split; [intros _; split; [reflexivity | exact I] | reflexivity].
  - split; [discriminate | intros [H _]; discriminate H].
Qed.

(** ** What the reader callback extracts *)

Lemma split_head sep s :
  exists seg segs, Js.split sep s = seg :: segs.
Proof.
  destruct s as [|c s]; cbn [Js.split]; [eauto|].
  destruct (N.eqb c sep); [eauto|].
  destruct (Js.split sep s); eauto.
Qed.

Lemma split_first s :
  nth_error (Js.split Js.comma s) 0 = Some (untilComma s).
Proof.
  induction s as [|c s IH]; cbn [Js.split untilComma]; [reflexivity|].
  destruct (N.eqb c Js.comma); [reflexivity|].
  destruct (Js.split Js.comma s) as [|seg segs]; [discriminate IH|].
  cbn in IH |- *. congruence.
Qed.

Lemma split_second s :
  nth_error (Js.split Js.comma s) 1
  = option_map untilComma (Js.afterFirstComma s).
Proof.
  induction s as [|c s IH]; cbn [Js.split Js.afterFirstComma]; [reflexivity|].
  destruct (N.eqb c Js.comma).
  - cbn [nth_error option_map]. apply split_first.
  - destruct (split_head Js.comma s) as (seg & segs & Hs).
    rewrite Hs in IH |- *. exact IH.
Qed.

Lemma afterFirstComma_comma_free s :
  forallb notComma s = true -> Js.afterFirstComma s = None.
Proof.
  induction s as [|c s IH]; cbn [forallb Js.afterFirstComma]; [reflexivity|].
  intros H. apply andb_prop in H as [Hc Hs].
  unfold notComma in Hc. apply negb_true_iff in Hc. rewrite Hc. exact (IH Hs).
Qed.

(** X6: for a non-empty reader result, the data [fileToGenerativePart]
    encodes is the text between the first and the second comma of the
    result (to its end when there is no second comma), and it is
    [undefined] when the result has no comma at all. *)
Theorem onloadend_between_commas s :
  s <> [] ->
  onloadend (Some s) = option_map untilComma (Js.afterFirstComma s)
  /\ (forallb notComma s = true -> onloadend (Some s) = None).
Proof.
  intros Hs.
  assert (H : onloadend (Some s)
              = option_map untilComma (Js.afterFirstComma s)).
  { unfold onloadend. destruct s as [|c s]; [contradiction|].
    cbn [Js.truthy]. apply split_second. }
  split; [exact H|].
  intros Hfree. rewrite H, (afterFirstComma_comma_free _ Hfree). reflexivity.
Qed.

Lemma onloadend_between_commas_witness :
  onloadend (Some (Js.lit "data:text/plain,a,b")) = Some (Js.lit "a")
  /\ onloadend (Some (Js.lit "iVBORw==")) = None.
Proof.
  assert (Hne : forall s : Js.str, Js.truthy s = true -> s <> [])
    by (intros s H ->; discriminate H).
  split.
  - exact (eq_trans
             (proj1 (onloadend_between_commas (Js.lit "data:text/plain,a,b")
                       (Hne (Js.lit "data:text/plain,a,b") eq_refl)))
             eq_refl).
  - exact (proj2 (onloadend_between_commas (Js.lit "iVBORw==")
                    (Hne (Js.lit "iVBORw==") eq_refl))
             eq_refl).
Defined.

(** X7: the data URI [processImage] builds from an image part reads back:
    when neither the mime type nor the data holds a comma, the reader
    callback of [fileToGenerativePart] extracts from that URI the data it
    was built from. *)
Theorem dataURI_reads_back mt blob :
  forallb notComma mt = true ->
  forallb notComma (Js.template (data blob)) = true ->
  onloadend (Some (Js.lit "data:" ++ mt ++ Js.lit ";base64,"
                   ++ Js.template (data blob)))
  = Some (Js.template (data blob)).
Proof.
  intros Hmt Hdata.
  set (payload := Js.template (data blob)) in *.
  assert (Hh : forallb notComma
                 (Js.lit "data:" ++ mt ++ Js.lit ";base64") = true).
  { rewrite !forallb_app, Hmt. reflexivity. }
  change (Js.lit "data:" ++ mt ++ Js.lit ";base64," ++ payload)
    with (dataURL mt payload).
  unfold onloadend.
  replace (Js.truthy (dataURL mt payload)) with true by reflexivity.
  rewrite dataURL_header, (split_at_comma _ _ Hh).
  rewrite (split_comma_free _ Hdata). reflexivity.
Qed.

Lemma dataURI_reads_back_witness :
  onloadend (Some (Js.lit "data:image/png;base64,AAAA")) = Some (Js.lit "AAAA").
Proof.
  exact (dataURI_reads_back (Js.lit "image/png")
           {| data := Some (Js.lit "AAAA"); mimeType := Some (Js.lit "image/png") |}
           eq_refl eq_refl).
Defined.

(** ** Blank prompts *)

Lemma trimStart_empty_iff s :
  Js.trimStart s = [] <-> forallb Js.isWhiteSpace s = true.
Proof.
  induction s as [|c s IH]; cbn [Js.trimStart forallb]; [tauto|].
  destruct (Js.isWhiteSpace c); cbn [andb]; [exact IH|].
  split; discriminate.
Qed.

Lemma forallb_trimStart s :
  forallb Js.isWhiteSpace (Js.trimStart s) = forallb Js.isWhiteSpace s.
Proof.
  induction s as [|c s IH]; cbn [Js.trimStart]; [reflexivity|].
  destruct (Js.isWhiteSpace c) eqn:Hc; [|reflexivity].
  cbn [forallb]. rewrite Hc, IH. reflexivity.
Qed.

Lemma forallb_rev_eq (f : N -> bool) s :
  forallb f (rev s) = forallb f s.
Proof.
  induction s as [|c s IH]; [reflexivity|].
  cbn [rev forallb]. rewrite forallb_app, IH. cbn [forallb].
  rewrite andb_true_r. apply andb_comm.
Qed.

Lemma trim_empty_iff s :
  Js.trim s = [] <-> forallb Js.isWhiteSpace s = true.
Proof.
  unfold Js.trim, Js.trimEnd.
  rewrite <- (forallb_trimStart s), <- (forallb_rev_eq _ (Js.trimStart s)).
  rewrite <- trimStart_empty_iff.
  split; intros H.
  - apply (f_equal (@rev N)) in H. rewrite rev_involutive in H. exact H.
  - rewrite H. reflexivity.
Qed.

(** X8: in AI_BACKGROUND mode with an original image present, the handler
    returns without calling [processImage] exactly when the prompt
    consists of white space and line terminators only (the empty prompt
    included); with any other code unit in it the call is made. *)
Theorem handleProcessImage_blank_prompt st o :
  originalImage st = Some o ->
  mode st = AI_BACKGROUND ->
  (snd (handleProcessImage_start st) = None
   <-> forallb Js.isWhiteSpace (prompt st) = true)
  /\ (snd (handleProcessImage_start st) = None ->
      error (fst (handleProcessImage_start st)) = Some msgNoPrompt).
Proof.
  intros Ho Hm. unfold handleProcessImage_start. rewrite Ho.
  cbn [mode prompt setResultImage setError setIsLoading]. rewrite Hm.
  rewrite <- trim_empty_iff.
  destruct (Js.trim (prompt st)) as [|c s]; cbn [Js.truthy negb fst snd].
  - split; [tauto | reflexivity].
  - split; [split; discriminate | discriminate].
Qed.

Lemma handleProcessImage_blank_prompt_witness :
  snd (handleProcessImage_start
         (stateWith AI_BACKGROUND None [9; 32; 160; 8203; 10]%N)) <> None.
Proof.
  intros H.
  apply (proj1 (handleProcessImage_blank_prompt
                  (stateWith AI_BACKGROUND None [9; 32; 160; 8203; 10]%N) cat
                  eq_refl eq_refl)) in H.
  discriminate H.
Defined.

(** ** Further properties of the handler and the page *)

Lemma userMessage_nonempty e : userMessage e <> [].
Proof.
  unfold userMessage. destruct (messageOf e) as [[|c m]|]; discriminate.
Qed.

Lemma handleProcessImage_start_frame st :
  mode (fst (handleProcessImage_start st)) = mode st
  /\ originalImage (fst (handleProcessImage_start st)) = originalImage st
  /\ backgroundImage (fst (handleProcessImage_start st)) = backgroundImage st
  /\ prompt (fst (handleProcessImage_start st)) = prompt st.
Proof.
  unfold handleProcessImage_start.
  destruct (originalImage st) as [o|] eqn:Ho; [|cbn; auto].
  cbn [mode prompt backgroundImage setResultImage setError setIsLoading].
  destruct (mode st) eqn:Hm.
  - cbn. auto.
  - destruct (negb _); cbn; auto.
  - destruct (backgroundImage st) eqn:Hb; cbn; auto.
Qed.

Lemma handleProcessImage_settled_frame r st :
  mode (snd (handleProcessImage_settled r st)) = mode st
  /\ originalImage (snd (handleProcessImage_settled r st)) = originalImage st
  /\ backgroundImage (snd (handleProcessImage_settled r st)) = backgroundImage st
  /\ prompt (snd (handleProcessImage_settled r st)) = prompt st.
Proof.
  destruct r as [result | e |]; [|destruct e|]; cbn; auto.
Qed.

(** X9: when [processImage] resolves, the handler ends with the result
    image set to the returned data URI, no error, the loading flag
    cleared and nothing logged to the console; and the view shows the
    result. *)
Theorem handleProcessImage_fulfilled st st1 c w log result :
  handleProcessImage_start st = (st1, Some c) ->
  processImage (apiPrompt c) (image c) (bgImage c) w = (log, Fulfilled result) ->
  resultImage (snd (handleProcessImage st w)) = Some result
  /\ error (snd (handleProcessImage st w)) = None
  /\ isLoading (snd (handleProcessImage st w)) = false
  /\ fst (handleProcessImage st w) = log
  /\ resultLink (render (snd (handleProcessImage st w))) = Some result
  /\ errorText (render (snd (handleProcessImage st w))) = None.
Proof.
  intros Hstart Hrun.
  destruct (handleProcessImage_start_call _ _ _ Hstart) as (_ & Herr & _).
  assert (Hne : result <> []).
  { destruct (processImage_fulfilled_scan
                (apiPrompt c) (image c) (bgImage c) w result) as (r & Hr);
      [rewrite Hrun; reflexivity|].
    pose proof (scanParts_fulfilled _ _ Hr) as Hs.
    intros ->. discriminate Hs. }
  rewrite handleProcessImage_run, Hstart, Hrun.
  cbn [fst snd handleProcessImage_settled render resultLink errorText
       resultImage error isLoading setIsLoading setResultImage].
  rewrite Herr, app_nil_r.
  destruct result as [|ch result]; [contradiction|].
  repeat split; reflexivity.
Qed.

Lemma handleProcessImage_fulfilled_witness :
  resultLink (render (snd (handleProcessImage (stateWith TRANSPARENT None [])
                             (worldAnswering (Fulfilled imageResponse)))))
  = Some (Js.lit "data:image/png;base64,AAAA").
Proof.
  exact (proj1 (proj2 (proj2 (proj2 (proj2
           (handleProcessImage_fulfilled
              (stateWith TRANSPARENT None [])
              (setResultImage None (setError None (setIsLoading true
                 (stateWith TRANSPARENT None []))))
              {| apiPrompt := transparentPrompt; image := cat; bgImage := None |}
              (worldAnswering (Fulfilled imageResponse))
              [ReadAsDataURL cat;
               GenerateContent (Js.lit "secret")
                 (request [imagePart cat (Some catURL);
                           textPart transparentPrompt])]
              (Js.lit "data:image/png;base64,AAAA") eq_refl eq_refl)))))).
Defined.

(** X10: a run of the handler never touches the user's inputs: mode,
    original image, background image and prompt are after the run what
    they were before, whatever the world does. *)
Theorem handleProcessImage_keeps_inputs st w :
  mode (snd (handleProcessImage st w)) = mode st
  /\ originalImage (snd (handleProcessImage st w)) = originalImage st
  /\ backgroundImage (snd (handleProcessImage st w)) = backgroundImage st
  /\ prompt (snd (handleProcessImage st w)) = prompt st.
Proof.
  rewrite handleProcessImage_run.
  pose proof (handleProcessImage_start_frame st) as Hs.
  destruct (handleProcessImage_start st) as [st1 [c|]]; cbn [fst snd] in *;
    [|exact Hs].
  destruct (handleProcessImage_settled_frame
              (snd (processImage (apiPrompt c) (image c) (bgImage c) w)) st1)
    as (H1 & H2 & H3 & H4).
  destruct Hs as (G1 & G2 & G3 & G4).
  rewrite H1, H2, H3, H4. auto.
Qed.

(** X11: there is no timeout. When the promise of [processImage] never
    settles, the page is left loading: the loader is shown, the process
    button stays disabled, and neither an error nor a result appears. *)
Theorem handleProcessImage_pending st st1 c w :
  handleProcessImage_start st = (st1, Some c) ->
  snd (processImage (apiPrompt c) (image c) (bgImage c) w) = Pending ->
  loader (render (snd (handleProcessImage st w))) = true
  /\ buttonDisabled (render (snd (handleProcessImage st w))) = true
  /\ errorText (render (snd (handleProcessImage st w))) = None
  /\ resultLink (render (snd (handleProcessImage st w))) = None.
Proof.
  intros Hstart Hrun.
  destruct (handleProcessImage_start_call _ _ _ Hstart) as (Hl & He & Hr & _).
  rewrite handleProcessImage_run, Hstart, Hrun.
  cbn [fst snd handleProcessImage_settled render loader buttonDisabled
       errorText resultLink].
  unfold isProcessButtonDisabled. rewrite Hl, He, Hr, orb_true_r. auto.
Qed.

Lemma handleProcessImage_pending_witness :
  loader (render (snd (handleProcessImage (stateWith TRANSPARENT None [])
                         (worldAnswering Pending)))) = true.
Proof.
  exact (proj1 (handleProcessImage_pending
                  (stateWith TRANSPARENT None [])
                  (setResultImage None (setError None (setIsLoading true
                     (stateWith TRANSPARENT None []))))
                  {| apiPrompt := transparentPrompt; image := cat; bgImage := None |}
                  (worldAnswering Pending) eq_refl eq_refl)).
Defined.

(** X12: with an original image present, a run that fails validation
    makes no file read and no request, yet it has already discarded the
    result of the previous run: the result image is cleared, the loading
    flag is clear and one of the two validation messages is shown. *)
Theorem handleProcessImage_validation_clears_result st o w :
  originalImage st = Some o ->
  snd (handleProcessImage_start st) = None ->
  fst (handleProcessImage st w) = []
  /\ resultImage (snd (handleProcessImage st w)) = None
  /\ isLoading (snd (handleProcessImage st w)) = false
  /\ ((mode st = AI_BACKGROUND
       /\ error (snd (handleProcessImage st w)) = Some msgNoPrompt)
      \/ (mode st = CUSTOM_BACKGROUND
          /\ error (snd (handleProcessImage st w)) = Some msgNoBackground)).
Proof.
  intros Ho. rewrite handleProcessImage_run.
  unfold handleProcessImage_start. rewrite Ho.
  cbn [mode prompt backgroundImage setResultImage setError setIsLoading].
  destruct (mode st).
  - discriminate.
  - destruct (negb _); [|discriminate]. intros _.
    repeat (split; [reflexivity|]). left. split; reflexivity.
  - destruct (backgroundImage st); [discriminate|]. intros _.
    repeat (split; [reflexivity|]). right. split; reflexivity.
Qed.

Lemma handleProcessImage_validation_clears_result_witness :
  resultImage
    (snd (handleProcessImage
            (setResultImage (Some (Js.lit "data:image/png;base64,AAAA"))
               (stateWith CUSTOM_BACKGROUND None []))
            (worldAnswering (Fulfilled imageResponse)))) = None.
Proof.
  exact (proj1 (proj2 (handleProcessImage_validation_clears_result
                  (setResultImage (Some (Js.lit "data:image/png;base64,AAAA"))
                     (stateWith CUSTOM_BACKGROUND None []))
                  cat (worldAnswering (Fulfilled imageResponse))
                  eq_refl eq_refl))).
Defined.

(** X13: while the process button is enabled a click never produces the
    "upload the original image" message: the handler either goes on to
    call [processImage] or stops at the prompt or background check. *)
Theorem enabled_click_passes_first_guard st :
  isProcessButtonDisabled st = false ->
  error (fst (handleProcessImage_start st)) <> Some msgNoOriginal
  /\ (snd (handleProcessImage_start st) = None ->
      error (fst (handleProcessImage_start st)) = Some msgNoPrompt
      \/ error (fst (handleProcessImage_start st)) = Some msgNoBackground).
Proof.
  unfold isProcessButtonDisabled. intros H.
  apply orb_false_iff in H as [Ho _].
  unfold handleProcessImage_start.
  destruct (originalImage st) as [o|]; [clear Ho|discriminate Ho].
  cbn [mode prompt backgroundImage setResultImage setError setIsLoading].
  destruct (mode st).
  - cbn [fst snd error setResultImage setError setIsLoading].
    split; intros H; discriminate H.
  - destruct (negb _);
      cbn [fst snd error setResultImage setError setIsLoading];
      split; intros H; try discriminate H; auto.
  - destruct (backgroundImage st);
      cbn [fst snd error setResultImage setError setIsLoading];
      split; intros H; try discriminate H; auto.
Qed.

Lemma enabled_click_passes_first_guard_witness :
  error (fst (handleProcessImage_start (stateWith AI_BACKGROUND None [])))
  = Some msgNoPrompt
  \/ error (fst (handleProcessImage_start (stateWith AI_BACKGROUND None [])))
     = Some msgNoBackground.
Proof.
  exact (proj2 (enabled_click_passes_first_guard
                  (stateWith AI_BACKGROUND None []) eq_refl) eq_refl).
Defined.

Lemma handleProcessImage_start_return_present st st1 o :
  originalImage st = Some o ->
  handleProcessImage_start st = (st1, None) ->
  resultImage st1 = None /\ isLoading st1 = false
  /\ (error st1 = Some msgNoPrompt \/ error st1 = Some msgNoBackground).
Proof.
  intros Ho. unfold handleProcessImage_start. rewrite Ho.
  cbn [mode prompt backgroundImage setResultImage setError setIsLoading].
  destruct (mode st).
  - discriminate.
  - destruct (negb _); [|discriminate]. intros [= <-]. cbn. auto.
  - destruct (backgroundImage st); [discriminate|]. intros [= <-]. cbn. auto.
Qed.

Lemma enabled_original st :
  isProcessButtonDisabled st = false -> exists o, originalImage st = Some o.
Proof.
  unfold isProcessButtonDisabled. intros H.
  apply orb_false_iff in H as [H _].
  destruct (originalImage st) as [o|]; [eauto | discriminate H].
Qed.

(** X14: in every reachable page, while the loading flag is set neither an
    error nor a result is held, and a result and an error are never held
    together: starting a run clears both, and a run ends with one of
    them. *)
Theorem result_and_error_exclusive p :
  reachable p ->
  (isLoading (ui p) = true ->
   error (ui p) = None /\ resultImage (ui p) = None)
  /\ (resultImage (ui p) = None \/ error (ui p) = None).
Proof.
  induction 1 as [|p q Hreach IH Hstep]; [cbn; auto|].
  pose proof (reachable_inFlight _ Hreach) as Hinv.
  destruct IH as [IHl IHx].
  inversion Hstep; subst; cbn [ui]; try (split; assumption).
  - match goal with
    | Hen : isProcessButtonDisabled _ = false,
      Hst : handleProcessImage_start _ = _ |- _ =>
        destruct (enabled_original _ Hen) as (o & Ho);
        destruct (handleProcessImage_start_return_present _ _ _ Ho Hst)
          as (Hr & Hl & _)
    end.
    split; [rewrite Hl; discriminate | left; exact Hr].
  - match goal with
    | Hst : handleProcessImage_start _ = _ |- _ =>
        destruct (handleProcessImage_start_call _ _ _ Hst) as (_ & He & Hr & _)
    end.
    split; [intros _; split; assumption | left; exact Hr].
  - match goal with
    | Hn : inFlight p = S _ |- _ =>
        rewrite Hinv in Hn;
        destruct (isLoading (ui p)) eqn:Hl; [|discriminate Hn]
    end.
    destruct (IHl eq_refl) as [He Hr].
    match goal with
    | Hr' : ?r <> Pending |- _ =>
        destruct r as [result | e |]; [|destruct (hasProperties e) eqn:Hp|contradiction]
    end;
      cbn [handleProcessImage_settled snd]; try rewrite Hp;
      cbn [isLoading error resultImage setIsLoading setError setResultImage];
      split; try discriminate; auto.
Qed.

Lemma result_and_error_exclusive_witness :
  resultImage (setResultImage None (setError None (setIsLoading true
                 (setOriginalImage cat initialState)))) = None.
Proof.
  refine (proj2 (proj1 (result_and_error_exclusive
     {| ui := setResultImage None (setError None (setIsLoading true
                (setOriginalImage cat initialState)));
        inFlight := 1 |} _) eq_refl)).
  eapply reachable_step.
  - eapply reachable_step; [apply reachable_init|].
    apply (step_setOriginalImage cat).
  - apply (step_click_call
             {| ui := setOriginalImage cat initialState; inFlight := 0 |}
             _ {| apiPrompt := transparentPrompt; image := cat; bgImage := None |});
      reflexivity.
Defined.

Lemma reachable_error_nonempty p :
  reachable p -> error (ui p) <> Some [].
Proof.
  induction 1 as [|p q Hreach IH Hstep]; [discriminate|].
  inversion Hstep; subst; cbn [ui]; try exact IH.
  - match goal with
    | Hst : handleProcessImage_start _ = _ |- _ =>
        destruct (handleProcessImage_start_return _ _ Hst)
          as ([He | [He | He]] & _)
    end; rewrite He; discriminate.
  - match goal with
    | Hst : handleProcessImage_start _ = _ |- _ =>
        destruct (handleProcessImage_start_call _ _ _ Hst) as (_ & He & _)
    end.
    rewrite He. discriminate.
  - match goal with
    | Hr' : ?r <> Pending |- _ =>
        destruct r as [result | e |]; [|destruct (hasProperties e) eqn:Hp|contradiction]
    end;
      cbn [handleProcessImage_settled snd]; try rewrite Hp;
      cbn [error setIsLoading setError setResultImage];
      [exact IH| |exact IH].
    intros [= He]. exact (userMessage_nonempty _ He).
Qed.

(** X15: in every reachable page an error that is held is displayed: the
    messages the handler sets are never empty, so [{error && ...}] renders
    each of them. *)
Theorem error_always_displayed p :
  reachable p -> errorText (render (ui p)) = error (ui p).
Proof.
  intros Hreach. pose proof (reachable_error_nonempty _ Hreach) as Hne.
  cbn [render errorText].
  destruct (error (ui p)) as [[|c m]|]; [contradiction | reflexivity | reflexivity].
Qed.

Lemma error_always_displayed_witness :
  errorText (render (setIsLoading false (setError (Some msgNoPrompt)
     (setResultImage None (setError None (setIsLoading true
        (setMode AI_BACKGROUND (setOriginalImage cat initialState))))))))
  = Some msgNoPrompt.
Proof.
  refine (error_always_displayed
     {| ui := setIsLoading false (setError (Some msgNoPrompt)
                (setResultImage None (setError None (setIsLoading true
                   (setMode AI_BACKGROUND (setOriginalImage cat initialState))))));
        inFlight := 0 |} _).
  eapply reachable_step.
  - eapply reachable_step.
    + eapply reachable_step; [apply reachable_init|].
      apply (step_setOriginalImage cat).
    + apply (step_setMode AI_BACKGROUND).
  - apply (step_click_return
             {| ui := setMode AI_BACKGROUND (setOriginalImage cat initialState);
                inFlight := 0 |}); reflexivity.
Defined.

(** X16: an uploaded original image is never taken away. A change event
    of the file input without a file leaves the state as it is, and one
    with files stores the first; and no step of the page clears the
    original image, so the button is never disabled again for lack of
    one. *)
Theorem original_image_never_cleared :
  (forall files st,
     originalImage st <> None ->
     originalImage (handleFileChange setOriginalImage files st) <> None)
  /\ (forall st, handleFileChange setOriginalImage None st = st
                 /\ handleFileChange setOriginalImage (Some []) st = st)
  /\ (forall f fs st,
        originalImage (handleFileChange setOriginalImage (Some (f :: fs)) st)
        = Some f)
  /\ (forall p q, step p q ->
        originalImage (ui p) <> None -> originalImage (ui q) <> None).
Proof.
  split; [|split; [|split]].
  - intros [[|f fs]|] st H; cbn; [exact H | discriminate | exact H].
  - intros st. split; reflexivity.
  - reflexivity.
  - intros p q Hstep H.
    inversion Hstep; subst; cbn [ui]; try exact H; try discriminate.
    + match goal with
      | Hst : handleProcessImage_start _ = _ |- _ =>
          destruct (handleProcessImage_start_return _ _ Hst) as (_ & _ & Ho)
      end.
      rewrite Ho. exact H.
    + match goal with
      | Hst : handleProcessImage_start _ = _ |- _ =>
          destruct (handleProcessImage_start_call _ _ _ Hst) as (_ & _ & _ & Ho)
      end.
      rewrite Ho. exact H.
    + destruct (handleProcessImage_settled_frame r (ui p)) as (_ & Ho & _).
      rewrite Ho. exact H.
Qed.

Lemma processImage_single_request_bound p o bg w :
  requestCount (fst (processImage p o bg w)) <= 1
  /\ filter isConsoleError (fst (processImage p o bg w)) = [].
Proof.
  rewrite processImage_run.
  assert (Hreads : filter isConsoleError (reads w o bg) = [])
    by (unfold reads; destruct (loadend w o), bg; reflexivity).
  destruct (API_KEY w) as [[|k ey]|]; cbn [fst]; try (split; [cbn; lia | reflexivity]).
  destruct (requestParts w p o bg) as [ps|]; cbn [fst].
  - rewrite requestCount_app, filter_app, Hreads. unfold requestCount at 1.
    rewrite reads_no_request. split; [cbn; lia | reflexivity].
  - unfold requestCount. rewrite reads_no_request. split; [cbn; lia | exact Hreads].
Qed.

(** X17: one click costs at most one request, and the handler writes to
    the console exactly the value [processImage] rejected with, once. *)
Theorem handleProcessImage_effects st w :
  requestCount (fst (handleProcessImage st w)) <= 1
  /\ (forall e,
        In (ConsoleError e) (fst (handleProcessImage st w))
        <-> exists c, snd (handleProcessImage_start st) = Some c
              /\ snd (processImage (apiPrompt c) (image c) (bgImage c) w)
                 = Rejected e)
  /\ List.length (filter isConsoleError (fst (handleProcessImage st w))) <= 1.
Proof.
  rewrite handleProcessImage_run.
  destruct (handleProcessImage_start st) as [st1 [c|]]; cbn [fst snd].
  - pose proof (processImage_single_request_bound
                  (apiPrompt c) (image c) (bgImage c) w) as [Hcount Hnoerr].
    remember (processImage (apiPrompt c) (image c) (bgImage c) w) as run
      eqn:Hrun.
    assert (Hlog : forall e, ~ In (ConsoleError e) (fst run)).
    { intros e Hin.
      assert (Hf : In (ConsoleError e) (filter isConsoleError (fst run)))
        by (apply filter_In; split; [exact Hin | reflexivity]).
      rewrite Hnoerr in Hf. exact Hf. }
    split; [|split].
    + rewrite requestCount_app.
      destruct (snd run); cbn; lia.
    + intros e. split.
      * intros Hin. apply in_app_or in Hin as [Hin | Hin];
          [destruct (Hlog _ Hin)|].
        exists c. split; [reflexivity|]. rewrite <- Hrun.
        destruct (snd run) as [result | e' |]; cbn in Hin; try contradiction.
        destruct Hin as [[= ->] | []]. reflexivity.
      * intros (c' & [= <-] & Hrej). apply in_or_app. right.
        rewrite <- Hrun in Hrej. rewrite Hrej. left. reflexivity.
    + rewrite filter_app, length_app, Hnoerr.
      destruct (snd run); cbn; lia.
  - split; [cbn; lia|]. split; [|cbn; lia].
    intros e. split; [intros [] | intros (c & Hc & _); discriminate Hc].
Qed.
